(** * make_node_reference: the logic-node reference generator

    A shallow embedding of [make_node_reference.py].  Python strings are
    [string]s whose characters are [ascii] codes (the docstrings, labels and
    identifiers of the node library are ASCII text); Python lists that are
    shared between the document and the code that still appends to them live
    in a heap and are named by their address; an exception ends the
    computation with [Raise]. *)

From Stdlib Require Import Ascii.
From stdpp Require Import base tactics option list strings sorting pretty.

Local Open Scope nat_scope.

(** ** Python string methods *)

Module Py.

(** [str.isspace] on ASCII: tab, LF, VT, FF, CR, FS, GS, RS, US, space. *)
Definition isspace (c : ascii) : bool :=
  let n := nat_of_ascii c in
  ((9 <=? n) && (n <=? 13)) || ((28 <=? n) && (n <=? 32)).

Definition eqc (a b : ascii) : bool := Ascii.eqb a b.

(** [s.startswith(p)] *)
Definition startswith (p s : string) : bool := String.prefix p s.

(** [s[n:]] *)
Fixpoint slice_from (n : nat) (s : string) : string :=
  match n, s with
  | 0, _ => s
  | S _, EmptyString => EmptyString
  | S m, String _ t => slice_from m t
  end.

(** [s.endswith(p)] *)
Definition endswith (p s : string) : bool :=
  (String.length p <=? String.length s)
  && String.eqb (slice_from (String.length s - String.length p) s) p.

(** [s.split(sep)] for a one-character separator: never empty. *)
Fixpoint split (sep : ascii) (s : string) : list string :=
  match s with
  | EmptyString => [EmptyString]
  | String c t =>
      if eqc c sep then EmptyString :: split sep t
      else match split sep t with
           | h :: r => String c h :: r
           | [] => [String c EmptyString]
           end
  end.

(** [s.split(sep, 1)]: at most one cut, at the first separator. *)
Fixpoint split1 (sep : ascii) (s : string) : list string :=
  match s with
  | EmptyString => [EmptyString]
  | String c t =>
      if eqc c sep then [EmptyString; t]
      else match split1 sep t with
           | h :: r => String c h :: r
           | [] => [String c EmptyString]
           end
  end.

(** [s.split()]: the maximal runs of non-whitespace characters.
    [cur] is the run being read, if one is open. *)
Fixpoint split_ws_go (cur : option string) (s : string) : list string :=
  match s with
  | EmptyString => option_list cur
  | String c t =>
      if isspace c then option_list cur ++ split_ws_go None t
      else split_ws_go (Some (from_option (fun w => w +:+ String c "") (String c "") cur)) t
  end.
Definition split_ws (s : string) : list string := split_ws_go None s.

(** [sep.join(l)] *)
Definition join (sep : string) (l : list string) : string := String.concat sep l.

(** [s.rstrip(chars)], the characters to strip given as a predicate. *)
Fixpoint rstrip_by (strip : ascii -> bool) (s : string) : string :=
  match s with
  | EmptyString => EmptyString
  | String c t =>
      match rstrip_by strip t with
      | EmptyString => if strip c then EmptyString else String c EmptyString
      | r => String c r
      end
  end.
(** [s.rstrip()] *)
Definition rstrip (s : string) : string := rstrip_by isspace s.
(** [s.rstrip("\n")] *)
Definition rstrip_nl (s : string) : string := rstrip_by (eqc "010") s.

(** [s.replace(old, new)] for a one-character [old]. *)
Fixpoint replace (old : ascii) (new : string) (s : string) : string :=
  match s with
  | EmptyString => EmptyString
  | String c t => (if eqc c old then new else String c EmptyString) +:+ replace old new t
  end.

Definition lower_char (c : ascii) : ascii :=
  let n := nat_of_ascii c in
  if (65 <=? n) && (n <=? 90) then ascii_of_nat (n + 32) else c.
Definition upper_char (c : ascii) : ascii :=
  let n := nat_of_ascii c in
  if (97 <=? n) && (n <=? 122) then ascii_of_nat (n - 32) else c.

(** [s.lower()] *)
Fixpoint lower (s : string) : string :=
  match s with
  | EmptyString => EmptyString
  | String c t => String (lower_char c) (lower t)
  end.

(** [s.capitalize()] *)
Definition capitalize (s : string) : string :=
  match s with
  | EmptyString => EmptyString
  | String c t => String (upper_char c) (lower t)
  end.

End Py.

Arguments Py.eqc : simpl never.
Arguments Py.isspace : simpl never.
Arguments Py.startswith : simpl never.
Arguments Py.slice_from : simpl never.

Example split_at : Py.split "@" "a@b@@c" = ["a"; "b"; ""; "c"].
Proof. reflexivity. Qed.
Example split1_first_colon : Py.split1 ":" "Value:Use the following: yes" = ["Value"; "Use the following: yes"].
Proof. reflexivity. Qed.
Example split_ws_ex : Py.split_ws ("  a b" +:+ String "010" "" +:+ "  c ") = ["a"; "b"; "c"].
Proof. reflexivity. Qed.
Example rstrip_ex : Py.rstrip "ab  c  " = "ab  c".
Proof. reflexivity. Qed.
Example lower_ex : Py.replace " " "-" (Py.lower "Math Float") = "math-float".
Proof. reflexivity. Qed.
Example endswith_ex : Py.endswith "." "abc." = true /\ Py.endswith "." "" = false.
Proof. split; reflexivity. Qed.

(** ** Exceptions *)

Inductive exn := ValueError.

Inductive result (A : Type) :=
| Ok (a : A)
| Raise (e : exn).
Arguments Ok {A} a.
Arguments Raise {A} e.

#[global] Instance result_ret : MRet result := fun A a => Ok a.
#[global] Instance result_bind : MBind result := fun A B k r =>
  match r with
  | Ok a => k a
  | Raise e => Raise e
  end.

(** [a, b = l]: unpacking a list into two names. *)
Definition unpack2 (l : list string) : result (string * string) :=
  match l with
  | [a; b] => Ok (a, b)
  | _ => Raise ValueError
  end.

(** [for x in l: s = body(s, x)], stopping at the first exception. *)
Fixpoint for_each {S A} (body : S -> A -> result S) (l : list A) (s : S) : result S :=
  match l with
  | [] => Ok s
  | x :: t => s' ← body s x; for_each body t s'
  end.

(** ** The markdownmaker document *)

Definition addr := nat.

(** Inline spans; [Text] is a plain Python [str]. *)
Inductive Inline :=
| Text (s : string)
| Bold (c : Inline)
| Italic (c : Inline)
| InlineCode (c : Inline)
| Link (label : Inline) (url : string).

(** Modelled from the spec: markdownmaker is an external package; [str] of a
    span is its markdown text: bold as [**text**], italic as [*text*], inline
    code between backquotes, links as [[label](url)]. *)
Fixpoint str (i : Inline) : string :=
  match i with
  | Text s => s
  | Bold c => "**" +:+ str c +:+ "**"
  | Italic c => "*" +:+ str c +:+ "*"
  | InlineCode c => "`" +:+ str c +:+ "`"
  | Link l u => "[" +:+ str l +:+ "](" +:+ u +:+ ")"
  end.

(** Blocks.  An [UnorderedList] keeps a reference to the Python list it was
    given, an [Optional] is a slot whose content may be assigned later; a
    [Header] has the level that was current when it was created. *)
Inductive Node :=
| Span (i : Inline)
| Header (level : nat) (c : Inline)
| Paragraph (c : Inline)
| UnorderedList (items : addr)
| Image (url alt_text : string)
| Quote (c : Inline)
| HorizontalRule
| Optional (slot : addr).

Record World := mkWorld {
  nodes : list Node;               (* the blocks added to [Document] *)
  py_lists : list (list Node);     (* the list objects, by address *)
  optionals : list (option Node);  (* the content of the [Optional]s *)
  header_level : nat
}.

Definition Document_add (n : Node) (w : World) : World :=
  mkWorld (nodes w ++ [n]) (py_lists w) (optionals w) (header_level w).

(** [x = []] *)
Definition new_list (w : World) : addr * World :=
  (length (py_lists w),
   mkWorld (nodes w) (py_lists w ++ [[]]) (optionals w) (header_level w)).

(** [x.append(n)] *)
Definition list_append (a : addr) (n : Node) (w : World) : World :=
  mkWorld (nodes w) (alter (fun l => l ++ [n]) a (py_lists w)) (optionals w)
          (header_level w).

(** [x = Optional()] *)
Definition new_optional (w : World) : addr * World :=
  (length (optionals w),
   mkWorld (nodes w) (py_lists w) (optionals w ++ [None]) (header_level w)).

(** [x.content = n] *)
Definition set_content (a : addr) (n : Node) (w : World) : World :=
  mkWorld (nodes w) (py_lists w) (<[a := Some n]> (optionals w)) (header_level w).

(** [with HeaderSubLevel(): ...] *)
Definition enter_sublevel (w : World) : World :=
  mkWorld (nodes w) (py_lists w) (optionals w) (S (header_level w)).
Definition leave_sublevel (w : World) : World :=
  mkWorld (nodes w) (py_lists w) (optionals w) (pred (header_level w)).

Definition empty_world : World := mkWorld [] [] [] 1.

(** ** The node registry (Blender and the Armory add-on) *)

Record NodeItem := mkNodeItem {
  nodetype : string;
  label : string
}.

(** What the script reads of a node class: [__doc__], [__module__], [bl_idname]. *)
Record NodeClass := mkNodeClass {
  __doc__ : option string;
  __module__ : string;
  bl_idname : string
}.

Record ArmNodeCategory := mkCategory {
  name : string;
  description : string;
  get_all_nodes : list NodeItem;
  deprecated_nodes : list NodeItem
}.

(** The host: [get_nodetype] (a Blender lookup), [arm.props.arm_version],
    [arm_nodes.category_items] (an ordered dict from section name to
    categories) and [arm_nodes.get_all_categories()]. *)
Record Host := mkHost {
  get_nodetype : string -> NodeClass;
  arm_version : string;
  category_items : list (string * list ArmNodeCategory);
  get_all_categories : list ArmNodeCategory
}.

(** ** The script *)

Definition PY_NODE_DIR : string :=
  "https://github.com/armory3d/armory/blob/master/blender/arm/logicnode/".
Definition HX_NODE_DIR : string :=
  "https://github.com/armory3d/armory/blob/master/Sources/armory/logicnode/".
Definition IMG_DIR : string :=
  "https://github.com/armory3d/armory_wiki_images/raw/master/logic_nodes/".

Definition get_anchor (text : string) : string :=
  "#" +:+ Py.replace " " "-" (Py.lower text).

Definition make_node_link (nodename : string) : Inline :=
  Link (InlineCode (Text nodename)) (get_anchor nodename).

(** [" ".join(s.split()).replace("\n", "")] *)
Definition collapse (s : string) : string :=
  Py.replace "010" "" (Py.join " " (Py.split_ws s)).

(** The local variables of [generate_node_documentation]: the four flags,
    and the addresses of the four item lists and of the deprecation slot. *)
Record Locals := mkLocals {
  has_see : bool;
  has_inputs : bool;
  has_outputs : bool;
  has_options : bool;
  see_list : addr;
  input_list : addr;
  output_list : addr;
  option_list : addr;
  deprecation_note : addr
}.

(** [Document.add(Paragraph(Bold(title))); Document.add(UnorderedList(lst))] *)
Definition add_section (title : string) (lst : addr) (w : World) : World :=
  Document_add (UnorderedList lst) (Document_add (Paragraph (Bold (Text title))) w).

(** [if not has_see: has_see = True; ...] and its three siblings. *)
Definition first_see (l : Locals) (w : World) : Locals * World :=
  if has_see l then (l, w)
  else (mkLocals true (has_inputs l) (has_outputs l) (has_options l) (see_list l)
          (input_list l) (output_list l) (option_list l) (deprecation_note l),
        add_section "See also:" (see_list l) w).
Definition first_input (l : Locals) (w : World) : Locals * World :=
  if has_inputs l then (l, w)
  else (mkLocals (has_see l) true (has_outputs l) (has_options l) (see_list l)
          (input_list l) (output_list l) (option_list l) (deprecation_note l),
        add_section "Inputs:" (input_list l) w).
Definition first_output (l : Locals) (w : World) : Locals * World :=
  if has_outputs l then (l, w)
  else (mkLocals (has_see l) (has_inputs l) true (has_options l) (see_list l)
          (input_list l) (output_list l) (option_list l) (deprecation_note l),
        add_section "Outputs:" (output_list l) w).
Definition first_option (l : Locals) (w : World) : Locals * World :=
  if has_options l then (l, w)
  else (mkLocals (has_see l) (has_inputs l) (has_outputs l) true (see_list l)
          (input_list l) (output_list l) (option_list l) (deprecation_note l),
        add_section "Options:" (option_list l) w).

(** The body of the first [for part in doc_parts] loop. *)
Definition see_step (st : Locals * World) (part : string) : Locals * World :=
  let '(l, w) := st in
  if Py.startswith "seeNode " part then
    let '(l, w) := first_see l w in
    (l, list_append (see_list l)
          (Span (Italic (make_node_link (Py.rstrip (Py.slice_from 8 part))))) w)
  else if Py.startswith "see " part then
    let '(l, w) := first_see l w in
    (l, list_append (see_list l)
          (Span (Italic (Text (Py.rstrip (Py.slice_from 4 part))))) w)
  else (l, w).

(** [name, description = payload.split(":", 1)], the description collapsed,
    and the item [f"{InlineCode(name)}: {description}"]. *)
Definition socket_item (payload : string) : result Node :=
  '(socket_name, description) ← unpack2 (Py.split1 ":" payload);
  let description := collapse description in
  Ok (Span (Text (str (InlineCode (Text socket_name)) +:+ ": " +:+ description))).

(** The [deprecated] branch up to the [Quote] it assigns. *)
Definition deprecation_quote (payload : string) : result Node :=
  '(alternatives, message) ← unpack2 (Py.split1 ":" payload);
  let message := collapse message in
  let message :=
    if negb (Py.endswith "." message) && negb (String.eqb message "")
    then message +:+ "." else message in
  let links :=
    fold_left (fun links alternative =>
                 if String.eqb alternative "" then links
                 else links ++ [str (make_node_link alternative)])
              (Py.split "," alternatives) [] in
  let message :=
    if 0 <? length links
    then ("Please use the following node(s) instead: " +:+ Py.join ", " links +:+ ".")
           +:+ " " +:+ message
    else message in
  Ok (Quote (Text (str (Bold (Text "DEPRECATED."))
                   +:+ " This node is deprecated and will be removed in future versions of Armory. "
                   +:+ message))).

(** The body of the second [for part in doc_parts] loop. *)
Definition socket_step (st : Locals * World) (part : string) : result (Locals * World) :=
  let '(l, w) := st in
  if Py.startswith "input " part then
    let '(l, w) := first_input l w in
    item ← socket_item (Py.slice_from 6 part);
    Ok (l, list_append (input_list l) item w)
  else if Py.startswith "output " part then
    let '(l, w) := first_output l w in
    item ← socket_item (Py.slice_from 7 part);
    Ok (l, list_append (output_list l) item w)
  else if Py.startswith "option " part then
    let '(l, w) := first_option l w in
    item ← socket_item (Py.slice_from 7 part);
    Ok (l, list_append (option_list l) item w)
  else if Py.startswith "deprecated " part then
    q ← deprecation_quote (Py.slice_from 11 part);
    Ok (l, set_content (deprecation_note l) q w)
  else Ok (l, w).

(** The "Sources:" paragraph. *)
Definition sources_paragraph (node_class : NodeClass) : Node :=
  let node_file_py := Py.join "/" (drop 2 (Py.split "." (__module__ node_class))) +:+ ".py" in
  let node_file_hx := Py.slice_from 2 (bl_idname node_class) +:+ ".hx" in
  let pylink := Link (Text "Python") (PY_NODE_DIR +:+ node_file_py) in
  let hxlink := Link (Text "Haxe") (HX_NODE_DIR +:+ node_file_hx) in
  Paragraph (Text (str (Bold (Text "Sources:")) +:+ " " +:+ str pylink +:+ " | " +:+ str hxlink)).

(** The screenshot block. *)
Definition image_block (nodeitem : NodeItem) (category : ArmNodeCategory) : Node :=
  Image (IMG_DIR +:+ Py.lower (name category) +:+ "/" +:+ nodetype nodeitem +:+ ".jpg")
        (label nodeitem +:+ " node").

Definition generate_node_documentation (h : Host) (nodeitem : NodeItem)
    (category : ArmNodeCategory) (w : World) : result World :=
  let node_class := get_nodetype h (nodetype nodeitem) in
  match __doc__ node_class with
  | None => Ok w
  | Some doc =>
      let doc_parts := Py.split "@" doc in
      let node_description := Py.rstrip_nl (default "" (head doc_parts)) in
      let node_description := collapse node_description in
      let '(deprecation_note, w) := new_optional w in
      let w := Document_add (Optional deprecation_note) w in
      let w := Document_add (Paragraph (Text node_description)) w in
      let '(see_list, w) := new_list w in
      let '(input_list, w) := new_list w in
      let '(output_list, w) := new_list w in
      let '(option_list, w) := new_list w in
      let l := mkLocals false false false false see_list input_list output_list
                        option_list deprecation_note in
      let '(l, w) := fold_left see_step doc_parts (l, w) in
      let w := Document_add (image_block nodeitem category) w in
      '(l, w) ← for_each socket_step doc_parts (l, w);
      Ok (Document_add (sources_paragraph node_class) w)
  end.

(** [sorted(iterable, key=lambda n: n.label)]: Python's sort is stable and
    compares the keys as strings, code by code.  Each item is inserted
    behind the items whose label is not greater. *)
Fixpoint insert_by_label (x : NodeItem) (l : list NodeItem) : list NodeItem :=
  match l with
  | [] => [x]
  | y :: t =>
      if String.ltb (label x) (label y) then x :: y :: t
      else y :: insert_by_label x t
  end.
Definition sorted_by_label (l : list NodeItem) : list NodeItem :=
  fold_left (fun acc x => insert_by_label x acc) l [].

(** A literal or comprehension: a new list object with these items. *)
Definition list_of (items : list Node) (w : World) : addr * World :=
  (length (py_lists w),
   mkWorld (nodes w) (py_lists w ++ [items]) (optionals w) (header_level w)).

(** One round of the loop over the sorted nodes of a category. *)
Definition node_entry (h : Host) (category : ArmNodeCategory) (w : World)
    (nodeitem : NodeItem) : result World :=
  let w := Document_add (Header (header_level w) (Text (label nodeitem))) w in
  generate_node_documentation h nodeitem category w.

(** One round of the loop over [arm_nodes.get_all_categories()]. *)
Definition category_entry (h : Host) (w : World) (category : ArmNodeCategory)
    : result World :=
  let w := Document_add (Header (header_level w) (Text (name category))) w in
  let w := if String.eqb (description category) "" then w
           else Document_add (Paragraph (Text (description category))) w in
  let w := enter_sublevel w in
  w ← for_each (node_entry h category)
        (sorted_by_label (get_all_nodes category ++ deprecated_nodes category)) w;
  Ok (leave_sublevel w).

(** One round of the loop over [arm_nodes.category_items.items()];
    [category_items] is the address of the listing being built. *)
Definition listing_step (category_items : addr) (w : World)
    (entry : string * list ArmNodeCategory) : World :=
  let '(section, section_categories) := entry in
  if 0 <? length section_categories then
    let w := list_append category_items (Span (Bold (Text (Py.capitalize section)))) w in
    let '(links, w) :=
      list_of (map (fun c => Span (Link (Text (name c)) (get_anchor (name c))))
                   section_categories) w in
    list_append category_items (UnorderedList links) w
  else w.

Definition intro_text : string :=
  "This document was generated automatically. Please do not edit this"
  +:+ " page directly, instead change the docstrings of the nodes in their"
  +:+ " " +:+ str (Link (Text "Python files") "https://github.com/armory3d/armory/tree/master/blender/arm/logicnode")
  +:+ " or the " +:+ str (Link (Text "generator script") "https://github.com/armory3d/armory_tools/blob/master/make_node_reference.py")
  +:+ " and " +:+ str (Link (Text "open a pull request") "https://github.com/armory3d/armory/wiki/contribute#creating-a-pull-request") +:+ "."
  +:+ " Thank you for contributing to this reference!".

(** [run]: the document it has built when it reaches [Document.write()];
    [reference.md] is opened and written only then. *)
Definition run (h : Host) : result World :=
  let w := empty_world in
  let w := Document_add (Header (header_level w) (Text "Logic Nodes Reference")) w in
  let w := Document_add (Paragraph (Italic (Text intro_text))) w in
  let w := Document_add (Paragraph (Italic (Text
             ("This reference was built for "
              +:+ str (Bold (Text ("Armory " +:+ arm_version h))) +:+ ".")))) w in
  let w := Document_add HorizontalRule w in
  let w := enter_sublevel w in
  let w := Document_add (Header (header_level w) (Text "Node Categories")) w in
  let '(category_items_list, w) := new_list w in
  let w := fold_left (listing_step category_items_list) (category_items h) w in
  let w := Document_add (UnorderedList category_items_list) w in
  w ← for_each (category_entry h) (get_all_categories h) w;
  Ok (leave_sublevel w).

(** The world of [run] when the loop over the sections starts: the
    introduction, the "Node Categories" header and the empty listing at
    address 0. *)
Definition preamble (h : Host) : World :=
  mkWorld
    [Header 1 (Text "Logic Nodes Reference");
     Paragraph (Italic (Text intro_text));
     Paragraph (Italic (Text ("This reference was built for "
                              +:+ str (Bold (Text ("Armory " +:+ arm_version h))) +:+ ".")));
     HorizontalRule;
     Header 2 (Text "Node Categories")]
    [[]] [] 2.

(** ** Reading a document *)

(** The items of the list block at an address, as they are when the document
    is written. *)
Definition items_at (w : World) (a : addr) : list Node :=
  default [] (py_lists w !! a).

(** The content of an [Optional] slot, if it was assigned. *)
Definition content_at (w : World) (a : addr) : option Node :=
  mjoin (optionals w !! a).

(** The blocks of [w'] that were added after [w]. *)
Definition added (w w' : World) : list Node := drop (length (nodes w)) (nodes w').

(** ** Vocabulary for the statements

    The tests of the two loops, read off their [startswith] chains. *)

(** The item the first loop appends for a fragment, if it is a
    [seeNode ] or a [see ] fragment. *)
Definition see_item (part : string) : option Node :=
  if Py.startswith "seeNode " part then
    Some (Span (Italic (make_node_link (Py.rstrip (Py.slice_from 8 part)))))
  else if Py.startswith "see " part then
    Some (Span (Italic (Text (Py.rstrip (Py.slice_from 4 part)))))
  else None.

Definition see_items (parts : list string) : list Node := omap see_item parts.

(** The three kinds of socket sections of the second loop. *)
Inductive Kind := KInput | KOutput | KOption.

#[global] Instance Kind_eq_dec : EqDecision Kind.
Proof. solve_decision. Defined.

Definition kind_title (k : Kind) : string :=
  match k with
  | KInput => "Inputs:"
  | KOutput => "Outputs:"
  | KOption => "Options:"
  end.

(** The kind of a fragment and its payload, by the tests of the second loop. *)
Definition socket_tag (part : string) : option (Kind * string) :=
  if Py.startswith "input " part then Some (KInput, Py.slice_from 6 part)
  else if Py.startswith "output " part then Some (KOutput, Py.slice_from 7 part)
  else if Py.startswith "option " part then Some (KOption, Py.slice_from 7 part)
  else None.

Definition socket_kind (part : string) : option Kind := fst <$> socket_tag part.

(** The payload of a [deprecated ] fragment. *)
Definition deprecated_tag (part : string) : option string :=
  match socket_tag part with
  | Some _ => None
  | None => if Py.startswith "deprecated " part then Some (Py.slice_from 11 part) else None
  end.

Definition has_colon (s : string) : bool :=
  existsb (Py.eqc ":") (String.list_ascii_of_string s).

(** A fragment on which the second loop raises: a tag of the loop whose
    payload has no colon. *)
Definition malformed_socket (part : string) : bool :=
  match socket_tag part with
  | Some (_, payload) => negb (has_colon payload)
  | None => false
  end.
Definition malformed (part : string) : bool :=
  malformed_socket part
  || match deprecated_tag part with
     | Some payload => negb (has_colon payload)
     | None => false
     end.

Definition from_result {A} (r : result A) : option A :=
  match r with
  | Ok a => Some a
  | Raise _ => None
  end.

(** The items of kind [k], one for each fragment of that kind, in order. *)
Definition socket_item_of (k : Kind) (part : string) : option Node :=
  match socket_tag part with
  | Some (k', payload) => if decide (k' = k) then from_result (socket_item payload) else None
  | None => None
  end.
Definition socket_items (k : Kind) (parts : list string) : list Node :=
  omap (socket_item_of k) parts.

(** The fragments of kind [k], in order. *)
Definition tags_of (k : Kind) (parts : list string) : list string :=
  filter (fun part => socket_kind part = Some k) parts.

(** The kinds of the fragments in the order of their first occurrence,
    leaving out the kinds in [seen]. *)
Fixpoint first_kinds (seen : list Kind) (parts : list string) : list Kind :=
  match parts with
  | [] => []
  | part :: rest =>
      match socket_kind part with
      | Some k =>
          if bool_decide (k ∈ seen) then first_kinds seen rest
          else k :: first_kinds (k :: seen) rest
      | None => first_kinds seen rest
      end
  end.

(** The position of the first fragment of kind [k]. *)
Fixpoint first_tag (k : Kind) (parts : list string) : option nat :=
  match parts with
  | [] => None
  | part :: rest =>
      if decide (socket_kind part = Some k) then Some 0
      else S <$> first_tag k rest
  end.

(** The title of a section header block. *)
Definition section_title (n : Node) : option string :=
  match n with
  | Paragraph (Bold (Text t)) => Some t
  | _ => None
  end.

(** [item] is the list item of the fragment [part], a tag of kind [k]. *)
Definition socket_item_for (k : Kind) (part : string) (item : Node) : Prop :=
  exists payload, socket_tag part = Some (k, payload) /\ socket_item payload = Ok item.

(** The message of a deprecation notice: whitespace collapsed, and closed
    by a full stop unless it is empty or has one. *)
Definition notice_message (message : string) : string :=
  let message := collapse message in
  if negb (Py.endswith "." message) && negb (String.eqb message "")
  then message +:+ "." else message.

(** The alternatives that remain: the non-empty entries between commas. *)
Definition kept_alternatives (alternatives : string) : list string :=
  filter (fun a => a <> "") (Py.split "," alternatives).

(** [needle in hay] *)
Fixpoint contains (needle hay : string) : bool :=
  String.prefix needle hay
  || match hay with
     | EmptyString => false
     | String _ t => contains needle t
     end.

Definition PLEASE_USE : string := "Please use the following node(s) instead: ".

Definition DEPRECATED_INTRO : string :=
  str (Bold (Text "DEPRECATED."))
  +:+ " This node is deprecated and will be removed in future versions of Armory. ".

(** The docstring of a node, if it has one, has no malformed tag. *)
Definition well_formed_doc (h : Host) (nodeitem : NodeItem) : Prop :=
  forall doc, __doc__ (get_nodetype h (nodetype nodeitem)) = Some doc ->
              existsb malformed (Py.split "@" doc) = false.

(** A string of whitespace only (possibly empty). *)
Definition blank (s : string) : bool :=
  forallb Py.isspace (String.list_ascii_of_string s).

(** A fragment that no test of the two loops recognises. *)
Definition untagged (part : string) : Prop :=
  see_item part = None /\ socket_tag part = None /\ deprecated_tag part = None.

(** The [see ] and [seeNode ] fragments, in order. *)
Definition see_tags (parts : list string) : list string :=
  filter (fun part => is_Some (see_item part)) parts.

(** The notice assigned by the last [deprecated ] fragment, if there is one. *)
Definition last_notice (parts : list string) : option Node :=
  last (omap (fun part => deprecated_tag part ≫= fun p => from_result (deprecation_quote p)) parts).

(** The header paragraph and the list block of a section. *)
Definition section_blocks (title : string) (a : addr) : list Node :=
  [Paragraph (Bold (Text title)); UnorderedList a].

(** The addresses of the socket lists: they follow the list of the
    "See also" items, allocated at [a]. *)
Definition kind_addr (a : addr) (k : Kind) : addr :=
  match k with
  | KInput => a + 1
  | KOutput => a + 2
  | KOption => a + 3
  end.

(** The description text of a docstring. *)
Definition description_of (doc : string) : string :=
  collapse (Py.rstrip_nl (default "" (head (Py.split "@" doc)))).

Definition header_text (level : nat) (n : Node) : option string :=
  match n with
  | Header lv (Text s) => if decide (lv = level) then Some s else None
  | _ => None
  end.

Definition is_image (n : Node) : bool :=
  match n with
  | Image _ _ => true
  | _ => false
  end.

(** ** Sample registries *)

Definition sample_class (doc : option string) : NodeClass :=
  mkNodeClass doc "arm.logicnode.math.LN_math" "LNMathNode".

Definition sample_item : NodeItem := mkNodeItem "LNMathNode" "Math".

Definition sample_category : ArmNodeCategory :=
  mkCategory "Math" "" [sample_item] [].

Definition empty_category : ArmNodeCategory :=
  mkCategory "Empty" "" [] [].

(** One section, "logic", with the given categories; every node class has
    the docstring [doc]. *)
Definition sample_host (doc : option string) (cats : list ArmNodeCategory) : Host :=
  mkHost (fun _ => sample_class doc) "2021.1" [("logic", cats)] cats.

(** A category whose declared order is not the alphabetical one, with a
    deprecated node that sorts between the active ones. *)
Definition mixed_category : ArmNodeCategory :=
  mkCategory "Logic" "Logic nodes."
    [mkNodeItem "LNSwitchNode" "Switch"; mkNodeItem "LNGateNode" "Gate"]
    [mkNodeItem "LNMergeNode" "Merge"].

(** An [input] tag before a [see] tag. *)
Definition doc_input_then_see : string := "Adds.@input a: first@see the manual".

Definition world_input_then_see : World :=
  Eval vm_compute in
    default empty_world
      (from_result (generate_node_documentation
                      (sample_host (Some doc_input_then_see) [sample_category])
                      sample_item sample_category empty_world)).

(** Two [input] tags around an [output] tag. *)
Definition doc_two_inputs : string :=
  "Adds.@input a: first@output sum: the sum@input b: second".

Definition world_two_inputs : World :=
  Eval vm_compute in
    default empty_world
      (from_result (generate_node_documentation
                      (sample_host (Some doc_two_inputs) [sample_category])
                      sample_item sample_category empty_world)).

(** The world after the entry of a node whose docstring is ["@"]. *)
Definition world_at_only : World :=
  Eval vm_compute in
    default empty_world
      (from_result (node_entry (sample_host (Some "@") [sample_category])
                               sample_category empty_world sample_item)).

(** A docstring whose leading text begins like a [see] tag. *)
Definition doc_leading_see : string := "see the manual@input a: first".

Definition world_leading_see : World :=
  Eval vm_compute in
    default empty_world
      (from_result (generate_node_documentation
                      (sample_host (Some doc_leading_see) [sample_category])
                      sample_item sample_category empty_world)).

(** The document of a registry whose only category has no node. *)
Definition world_empty_category : World :=
  Eval vm_compute in
    default empty_world
      (from_result (run (sample_host (Some "Doc.") [empty_category]))).

(** Two [deprecated] tags. *)
Definition doc_two_notices : string :=
  "Old.@deprecated First:use the first@input a: x@deprecated Second:use the second".

Definition world_two_notices : World :=
  Eval vm_compute in
    default empty_world
      (from_result (generate_node_documentation
                      (sample_host (Some doc_two_notices) [sample_category])
                      sample_item sample_category empty_world)).

(** Two sections, the second without categories, and two categories. *)
Definition two_section_host : Host :=
  mkHost (fun _ => sample_class (Some "Doc.")) "2021.1"
         [("logic", [mixed_category; sample_category]); ("default", [])]
         [mixed_category; sample_category].

Definition world_two_sections : World :=
  Eval vm_compute in default empty_world (from_result (run two_section_host)).

(** The world after the entry of [mixed_category], every node documented
    by ["Doc."]. *)
Definition mixed_world : World :=
  Eval vm_compute in
    default empty_world
      (from_result (category_entry (sample_host (Some "Doc.") [mixed_category])
                                   empty_world mixed_category)).

(** * Properties *)

(** ** Splitting at the first colon *)

Lemma eqc_sym a b : Py.eqc a b = Py.eqc b a.
Proof. apply Ascii.eqb_sym. Qed.

Lemma split1_no_colon s :
  has_colon s = false -> Py.split1 ":" s = [s].
Proof.
  unfold has_colon. induction s as [|c t IH]; simpl; [done|].
  rewrite (eqc_sym c). destruct (Py.eqc ":" c); [done|]. simpl.
  intros Ht. by rewrite (IH Ht).
Qed.

Lemma split1_colon s :
  has_colon s = true -> exists a b, Py.split1 ":" s = [a; b].
Proof.
  unfold has_colon. induction s as [|c t IH]; simpl; [done|].
  rewrite (eqc_sym c). destruct (Py.eqc ":" c); simpl; [by eauto|].
  intros Ht. destruct (IH Ht) as (a & b & ->). eauto.
Qed.

Lemma split1_app a b :
  has_colon a = false -> Py.split1 ":" (a +:+ ":" +:+ b) = [a; b].
Proof.
  unfold has_colon. induction a as [|c t IH]; simpl; [done|].
  rewrite (eqc_sym c). destruct (Py.eqc ":" c); simpl; [done|].
  intros Ht. by rewrite (IH Ht).
Qed.

Lemma unpack2_no_colon s :
  has_colon s = false -> unpack2 (Py.split1 ":" s) = Raise ValueError.
Proof. intros E. by rewrite (split1_no_colon _ E). Qed.

Lemma unpack2_colon s :
  has_colon s = true -> exists a b, Py.split1 ":" s = [a; b] /\ unpack2 (Py.split1 ":" s) = Ok (a, b).
Proof. intros E. destruct (split1_colon _ E) as (a & b & ->). eauto. Qed.

Lemma socket_item_raise payload :
  has_colon payload = false -> socket_item payload = Raise ValueError.
Proof. intros E. unfold socket_item. by rewrite (unpack2_no_colon _ E). Qed.

Lemma socket_item_ok payload :
  has_colon payload = true -> exists n, socket_item payload = Ok n.
Proof.
  intros E. unfold socket_item.
  destruct (unpack2_colon _ E) as (a & b & _ & ->). simpl. eauto.
Qed.

Lemma deprecation_quote_raise payload :
  has_colon payload = false -> deprecation_quote payload = Raise ValueError.
Proof. intros E. unfold deprecation_quote. by rewrite (unpack2_no_colon _ E). Qed.

Lemma deprecation_quote_ok payload :
  has_colon payload = true -> exists q, deprecation_quote payload = Ok q.
Proof.
  intros E. unfold deprecation_quote.
  destruct (unpack2_colon _ E) as (a & b & _ & ->). simpl. eauto.
Qed.

(** ** The first loop: the "See also" section *)

(** The blocks the first loop adds when it starts with flag [hs]. *)
Definition see_blocks (hs : bool) (a : addr) (items : list Node) : list Node :=
  if hs then []
  else match items with
       | [] => []
       | _ :: _ => section_blocks "See also:" a
       end.

Definition nonempty {A} (l : list A) : bool :=
  match l with
  | [] => false
  | _ :: _ => true
  end.

Lemma see_items_cons part rest :
  see_items (part :: rest)
  = match see_item part with
    | Some x => x :: see_items rest
    | None => see_items rest
    end.
Proof. done. Qed.

Section SeePass.
Variables (hi ho hp : bool) (ai ao ap dn : addr).
Variables (H : list (list Node)) (i o p : list Node).
Variables (O : list (option Node)) (lv : nat).

Lemma see_step_item hs N s part x :
  see_item part = Some x ->
  see_step (mkLocals hs hi ho hp (length H) ai ao ap dn,
            mkWorld N (H ++ [s; i; o; p]) O lv) part
  = (mkLocals true hi ho hp (length H) ai ao ap dn,
     mkWorld (N ++ see_blocks hs (length H) [x]) (H ++ [s ++ [x]; i; o; p]) O lv).
Proof.
  unfold see_item, see_step, first_see, list_append, add_section, Document_add.
  assert (Ha : forall y : Node,
    alter (fun l => l ++ [y]) (length H) (H ++ [s; i; o; p]) = H ++ [s ++ [y]; i; o; p]).
  { intros y. by rewrite <- (Nat.add_0_r (length H)), alter_app_r. }
  intros Hx.
  destruct (Py.startswith "seeNode " part);
    [|destruct (Py.startswith "see " part); [|done]];
    injection Hx as <-; destruct hs; simpl; rewrite Ha, ?app_nil_r, <- ?app_assoc; done.
Qed.

Lemma see_step_other st part :
  see_item part = None -> see_step st part = st.
Proof.
  unfold see_item, see_step. destruct st as [l w].
  destruct (Py.startswith "seeNode " part); [done|].
  destruct (Py.startswith "see " part); done.
Qed.

Lemma see_pass_spec parts : forall hs N s,
  fold_left see_step parts
    (mkLocals hs hi ho hp (length H) ai ao ap dn, mkWorld N (H ++ [s; i; o; p]) O lv)
  = (mkLocals (hs || nonempty (see_items parts)) hi ho hp (length H) ai ao ap dn,
     mkWorld (N ++ see_blocks hs (length H) (see_items parts))
             (H ++ [s ++ see_items parts; i; o; p]) O lv).
Proof.
  induction parts as [|part rest IH]; intros hs N s.
  - simpl. rewrite orb_false_r. unfold see_blocks. destruct hs; by rewrite !app_nil_r.
  - cbn [fold_left]. rewrite see_items_cons.
    destruct (see_item part) as [x|] eqn:Hx.
    + rewrite (see_step_item _ _ _ _ _ Hx), IH. simpl.
      rewrite orb_true_r, <- !app_assoc. simpl.
      unfold see_blocks. destruct hs; simpl; by rewrite ?app_nil_r.
    + rewrite (see_step_other _ _ Hx). apply IH.
Qed.
End SeePass.

(** ** The second loop: the socket sections and the deprecation notice *)

Definition socket_blocks (a : addr) (ks : list Kind) : list Node :=
  flat_map (fun k => section_blocks (kind_title k) (kind_addr a k)) ks.

(** The flags of the second loop agree with a list of kinds already seen. *)
Definition flags_agree (hi ho hp : bool) (seen : list Kind) : Prop :=
  hi = bool_decide (KInput ∈ seen) /\ ho = bool_decide (KOutput ∈ seen)
  /\ hp = bool_decide (KOption ∈ seen).

Definition flag_of (hi ho hp : bool) (k : Kind) : bool :=
  match k with
  | KInput => hi
  | KOutput => ho
  | KOption => hp
  end.

Definition item_if (k k' : Kind) (x : Node) : list Node :=
  if decide (k = k') then [x] else [].

Lemma socket_items_cons k part rest :
  socket_items k (part :: rest)
  = match socket_item_of k part with
    | Some x => x :: socket_items k rest
    | None => socket_items k rest
    end.
Proof. done. Qed.

Lemma last_notice_cons part rest :
  last_notice (part :: rest)
  = match deprecated_tag part ≫= (fun p => from_result (deprecation_quote p)) with
    | Some q => Some (default q (last_notice rest))
    | None => last_notice rest
    end.
Proof.
  unfold last_notice. simpl.
  destruct (deprecated_tag part ≫= _) as [q|]; [|done].
  rewrite last_cons. by destruct (last _).
Qed.

Lemma deprecated_tag_socket part k payload :
  socket_tag part = Some (k, payload) -> deprecated_tag part = None.
Proof. unfold deprecated_tag. by intros ->. Qed.

Lemma flags_agree_flag hi ho hp seen k :
  flags_agree hi ho hp seen -> bool_decide (k ∈ seen) = flag_of hi ho hp k.
Proof. intros (-> & -> & ->). by destruct k. Qed.

Lemma flags_agree_seen hi ho hp seen k :
  flags_agree hi ho hp seen -> flag_of hi ho hp k = true ->
  flags_agree (hi || bool_decide (k = KInput)) (ho || bool_decide (k = KOutput))
              (hp || bool_decide (k = KOption)) seen.
Proof.
  intros Hf Hk. pose proof Hf as (Hi & Ho & Hp).
  destruct k; simpl in *; subst; rewrite ?orb_false_r, ?Hk; done.
Qed.

Lemma seen_cons_ne (k k' : Kind) seen :
  k <> k' -> bool_decide (k ∈ k' :: seen) = bool_decide (k ∈ seen).
Proof.
  intros Hne. apply bool_decide_ext. rewrite elem_of_cons.
  split; [intros [?|?]; done|by right].
Qed.

Lemma flags_agree_new hi ho hp seen k :
  flags_agree hi ho hp seen -> flag_of hi ho hp k = false ->
  flags_agree (hi || bool_decide (k = KInput)) (ho || bool_decide (k = KOutput))
              (hp || bool_decide (k = KOption)) (k :: seen).
Proof.
  intros (-> & -> & ->) Hk. unfold flags_agree.
  destruct k; simpl in *; rewrite ?orb_false_r, ?orb_true_r;
    repeat split; symmetry;
    first [ by apply bool_decide_eq_true, list_elem_of_here
          | by apply seen_cons_ne ].
Qed.

Section SocketPass.
Variables (hs : bool) (H : list (list Node)) (s : list Node).
Variables (O0 : list (option Node)) (lv : nat).

Let locals (hi ho hp : bool) : Locals :=
  mkLocals hs hi ho hp (length H) (length H + 1) (length H + 2) (length H + 3)
           (length O0).

Lemma socket_step_tag hi ho hp N i o p c part k payload x :
  socket_tag part = Some (k, payload) ->
  socket_item payload = Ok x ->
  socket_step (locals hi ho hp, mkWorld N (H ++ [s; i; o; p]) (O0 ++ [c]) lv) part
  = Ok (locals (hi || bool_decide (k = KInput)) (ho || bool_decide (k = KOutput))
               (hp || bool_decide (k = KOption)),
        mkWorld (N ++ (if flag_of hi ho hp k then []
                       else section_blocks (kind_title k) (kind_addr (length H) k)))
                (H ++ [s; i ++ item_if k KInput x; o ++ item_if k KOutput x;
                       p ++ item_if k KOption x])
                (O0 ++ [c]) lv).
Proof.
  unfold socket_tag, socket_step, locals. intros Ht Hx.
  destruct (Py.startswith "input " part);
    [|destruct (Py.startswith "output " part);
      [|destruct (Py.startswith "option " part); [|done]]];
    injection Ht as <- <-; rewrite Hx;
    unfold first_input, first_output, first_option, list_append, add_section,
      Document_add; simpl;
    [destruct hi|destruct ho|destruct hp]; simpl;
    rewrite alter_app_r; simpl;
    rewrite ?orb_false_r, ?orb_true_r, ?app_nil_r, <- ?app_assoc; done.
Qed.

Lemma socket_step_malformed st part :
  malformed part = true -> socket_step st part = Raise ValueError.
Proof.
  unfold malformed, malformed_socket, deprecated_tag, socket_tag, socket_step.
  destruct st as [l w].
  destruct (Py.startswith "input " part);
    [|destruct (Py.startswith "output " part);
      [|destruct (Py.startswith "option " part);
        [|destruct (Py.startswith "deprecated " part); [|done]]]];
    rewrite ?orb_false_r; simpl; intros E%negb_true_iff;
    [destruct (first_input l w)|destruct (first_output l w)
    |destruct (first_option l w)|];
    rewrite ?(socket_item_raise _ E), ?(deprecation_quote_raise _ E); done.
Qed.

Lemma socket_step_deprecated hi ho hp N L c part payload q :
  deprecated_tag part = Some payload ->
  deprecation_quote payload = Ok q ->
  socket_step (locals hi ho hp, mkWorld N L (O0 ++ [c]) lv) part
  = Ok (locals hi ho hp, mkWorld N L (O0 ++ [Some q]) lv).
Proof.
  unfold deprecated_tag, socket_tag, socket_step, locals. intros Ht Hq.
  destruct (Py.startswith "input " part); [done|].
  destruct (Py.startswith "output " part); [done|].
  destruct (Py.startswith "option " part); [done|].
  destruct (Py.startswith "deprecated " part); [|done].
  injection Ht as <-. rewrite Hq. unfold set_content. simpl.
  by rewrite <- (Nat.add_0_r (length O0)), insert_app_r.
Qed.

Lemma socket_step_other st part :
  socket_tag part = None -> deprecated_tag part = None ->
  socket_step st part = Ok st.
Proof.
  unfold deprecated_tag, socket_tag, socket_step. destruct st as [l w].
  destruct (Py.startswith "input " part); [done|].
  destruct (Py.startswith "output " part); [done|].
  destruct (Py.startswith "option " part); [done|].
  destruct (Py.startswith "deprecated " part); done.
Qed.

Lemma socket_pass_ok parts : forall hi ho hp seen N i o p c,
  flags_agree hi ho hp seen ->
  existsb malformed parts = false ->
  exists hi' ho' hp',
    for_each socket_step parts
      (locals hi ho hp, mkWorld N (H ++ [s; i; o; p]) (O0 ++ [c]) lv)
    = Ok (locals hi' ho' hp',
          mkWorld (N ++ socket_blocks (length H) (first_kinds seen parts))
                  (H ++ [s; i ++ socket_items KInput parts;
                         o ++ socket_items KOutput parts;
                         p ++ socket_items KOption parts])
                  (O0 ++ [match last_notice parts with
                          | Some q => Some q
                          | None => c
                          end]) lv).
Proof.
  induction parts as [|part rest IH]; intros hi ho hp seen N i o p c Hf Hm.
  - exists hi, ho, hp. simpl. by rewrite !app_nil_r.
  - cbn [existsb] in Hm. apply orb_false_iff in Hm as [Hp Hrest].
    cbn [for_each]. rewrite !socket_items_cons, last_notice_cons.
    unfold socket_item_of. cbn [first_kinds]. unfold socket_kind.
    destruct (socket_tag part) as [[k payload]|] eqn:Ht.
    + assert (has_colon payload = true) as Hc.
      { unfold malformed, malformed_socket in Hp. rewrite Ht in Hp.
        apply orb_false_iff in Hp as [Hp _]. by apply negb_false_iff in Hp. }
      destruct (socket_item_ok _ Hc) as [x Hx].
      rewrite (socket_step_tag _ _ _ _ _ _ _ _ _ _ _ _ Ht Hx). cbn [mbind result_bind].
      rewrite (deprecated_tag_socket _ _ _ Ht), Hx.
      cbn [fmap option_fmap option_map fst mbind option_bind from_result].
      rewrite (flags_agree_flag _ _ _ _ k Hf).
      destruct (flag_of hi ho hp k) eqn:Hk.
      * destruct (IH _ _ _ _ (N ++ []) (i ++ item_if k KInput x)
                    (o ++ item_if k KOutput x) (p ++ item_if k KOption x) c
                    (flags_agree_seen _ _ _ _ _ Hf Hk) Hrest)
          as (hi' & ho' & hp' & ->).
        exists hi', ho', hp'. rewrite app_nil_r.
        destruct k; simpl; rewrite <- ?app_assoc, ?app_nil_r; done.
      * destruct (IH _ _ _ _ (N ++ section_blocks (kind_title k) (kind_addr (length H) k))
                    (i ++ item_if k KInput x)
                    (o ++ item_if k KOutput x) (p ++ item_if k KOption x) c
                    (flags_agree_new _ _ _ _ _ Hf Hk) Hrest)
          as (hi' & ho' & hp' & ->).
        exists hi', ho', hp'.
        destruct k; simpl; rewrite <- ?app_assoc, ?app_nil_r; done.
    + cbn [fmap option_fmap option_map].
      destruct (deprecated_tag part) as [payload|] eqn:Hd.
      * assert (has_colon payload = true) as Hc.
        { unfold malformed in Hp. rewrite Hd in Hp.
          apply orb_false_iff in Hp as [_ Hp]. by apply negb_false_iff in Hp. }
        destruct (deprecation_quote_ok _ Hc) as [q Hq].
        rewrite (socket_step_deprecated _ _ _ _ _ _ _ _ _ Hd Hq). cbn [mbind result_bind].
        destruct (IH _ _ _ _ N i o p (Some q) Hf Hrest) as (hi' & ho' & hp' & ->).
        exists hi', ho', hp'. cbn [option_bind]. rewrite Hq. simpl.
        by destruct (last_notice rest).
      * rewrite (socket_step_other _ _ Ht Hd). cbn [mbind result_bind option_bind].
        apply IH; done.
Qed.
End SocketPass.

Lemma socket_pass_raise parts : forall st,
  existsb malformed parts = true ->
  for_each socket_step parts st = Raise ValueError.
Proof.
  induction parts as [|part rest IH]; intros st Hm; [done|].
  cbn [existsb] in Hm. cbn [for_each].
  destruct (malformed part) eqn:Hp.
  - by rewrite (socket_step_malformed _ _ Hp).
  - destruct (socket_step st part) as [st'|[]]; [|done].
    cbn [mbind result_bind]. by apply IH.
Qed.

Lemma flags_agree_nil : flags_agree false false false [].
Proof. repeat split. Qed.

(** ** What [generate_node_documentation] returns *)

(** The blocks of a documented node after its header: the deprecation slot
    [o], the description, the "See also" section, the screenshot, the socket
    sections and the sources; [a] is the address of the first item list. *)
Definition node_body (nodeitem : NodeItem) (category : ArmNodeCategory)
    (node_class : NodeClass) (doc : string) (o a : addr) : list Node :=
  let parts := Py.split "@" doc in
  [Optional o; Paragraph (Text (description_of doc))]
    ++ see_blocks false a (see_items parts)
    ++ [image_block nodeitem category]
    ++ socket_blocks a (first_kinds [] parts)
    ++ [sources_paragraph node_class].

(** The world after a successful call on a node with docstring [doc],
    started in [w]. *)
Definition documented (nodeitem : NodeItem) (category : ArmNodeCategory)
    (node_class : NodeClass) (doc : string) (w : World) : World :=
  let parts := Py.split "@" doc in
  mkWorld
    (nodes w ++ node_body nodeitem category node_class doc
                          (length (optionals w)) (length (py_lists w)))
    (py_lists w ++ [see_items parts; socket_items KInput parts;
                    socket_items KOutput parts; socket_items KOption parts])
    (optionals w ++ [last_notice parts])
    (header_level w).

Lemma generate_node_documentation_eq h nodeitem category w doc :
  __doc__ (get_nodetype h (nodetype nodeitem)) = Some doc ->
  generate_node_documentation h nodeitem category w
  = if existsb malformed (Py.split "@" doc) then Raise ValueError
    else Ok (documented nodeitem category (get_nodetype h (nodetype nodeitem)) doc w).
Proof.
  intros Hdoc. unfold generate_node_documentation. rewrite Hdoc.
  destruct w as [N L O lv].
  unfold new_optional, new_list, Document_add. cbn [nodes py_lists optionals header_level].
  rewrite !length_app. cbn [length].
  rewrite <- !(assoc_L (++)) , <- !Nat.add_assoc. cbn [app Nat.add].
  rewrite see_pass_spec. cbn [orb nodes py_lists optionals header_level].
  destruct (existsb malformed (Py.split "@" doc)) eqn:Hm.
  - by rewrite (socket_pass_raise _ _ Hm).
  - destruct (socket_pass_ok (nonempty (see_items (Py.split "@" doc))) L
                ([] ++ see_items (Py.split "@" doc)) O lv (Py.split "@" doc)
                false false false [] (N ++ Optional (length O)
                  :: Paragraph (Text (collapse (Py.rstrip_nl (default "" (head (Py.split "@" doc))))))
                  :: see_blocks false (length L) (see_items (Py.split "@" doc))
                  ++ [image_block nodeitem category]) [] [] [] None
                flags_agree_nil Hm) as (hi & ho & hp & E).
    rewrite <- !(assoc_L (++)) in E. cbn [app] in *.
    rewrite <- !(assoc_L (++)). cbn [app]. rewrite E. cbn [mbind result_bind].
    unfold documented, node_body, Document_add, description_of.
    cbn [nodes py_lists optionals header_level app].
    rewrite <- !(assoc_L (++)). cbn [app].
    rewrite <- (assoc_L (++) (see_blocks _ _ _)). cbn [app].
    by destruct (last_notice (Py.split "@" doc)).
Qed.

(** ** Sorting the nodes of a category *)

Definition label_le (a b : NodeItem) : Prop := (label a ≤ label b)%string.

Lemma ltb_false_le s1 s2 : String.ltb s1 s2 = false -> (s2 ≤ s1)%string.
Proof.
  unfold String.ltb, String.le, String.leb. rewrite (String.compare_antisym s1 s2).
  by destruct (String.compare s2 s1).
Qed.

Lemma ltb_true_le s1 s2 : String.ltb s1 s2 = true -> (s1 ≤ s2)%string.
Proof.
  unfold String.ltb, String.le, String.leb. by destruct (String.compare s1 s2).
Qed.

Lemma string_compare_refl s : String.compare s s = Eq.
Proof.
  induction s as [|c t IH]; simpl; [done|].
  unfold Ascii.compare. by rewrite N.compare_refl.
Qed.

Lemma ltb_true_ne s1 s2 : String.ltb s1 s2 = true -> s1 <> s2.
Proof.
  unfold String.ltb. intros E ->. by rewrite string_compare_refl in E.
Qed.

Lemma insert_by_label_perm x l : insert_by_label x l ≡ₚ x :: l.
Proof.
  induction l as [|y t IH]; simpl; [done|].
  destruct (String.ltb (label x) (label y)); [done|].
  rewrite IH. apply Permutation_swap.
Qed.

Lemma sorted_by_label_perm_acc l : forall acc,
  fold_left (fun acc x => insert_by_label x acc) l acc ≡ₚ acc ++ l.
Proof.
  induction l as [|x t IH]; intros acc; simpl.
  - by rewrite app_nil_r.
  - rewrite IH, insert_by_label_perm. simpl. apply Permutation_middle.
Qed.

Lemma sorted_by_label_perm l : sorted_by_label l ≡ₚ l.
Proof. apply (sorted_by_label_perm_acc l []). Qed.

Lemma insert_by_label_sorted x l :
  StronglySorted label_le l -> StronglySorted label_le (insert_by_label x l).
Proof.
  induction 1 as [|y t Ht IH Hy]; simpl.
  - repeat constructor.
  - destruct (String.ltb (label x) (label y)) eqn:E.
    + constructor; [by constructor|].
      constructor; [by apply ltb_true_le|].
      eapply Forall_impl; [exact Hy|]. intros z Hz. unfold label_le in *.
      etrans; [by apply ltb_true_le|done].
    + constructor; [done|].
      rewrite insert_by_label_perm. constructor; [|done].
      by apply ltb_false_le.
Qed.

Lemma sorted_by_label_sorted_acc l : forall acc,
  StronglySorted label_le acc ->
  StronglySorted label_le (fold_left (fun acc x => insert_by_label x acc) l acc).
Proof.
  induction l as [|x t IH]; intros acc Hacc; simpl; [done|].
  by apply IH, insert_by_label_sorted.
Qed.

Lemma sorted_by_label_sorted l : StronglySorted label_le (sorted_by_label l).
Proof. apply sorted_by_label_sorted_acc. constructor. Qed.

Lemma filter_none {A} (P : A -> Prop) `{forall x, Decision (P x)} (l : list A) :
  Forall (fun x => ~ P x) l -> filter P l = [].
Proof.
  induction 1 as [|x t Hx Ht IH]; [done|]. by rewrite filter_cons_False.
Qed.

(** Stability: the nodes with a given label keep their relative order. *)
Lemma insert_by_label_filter s x l :
  StronglySorted label_le l ->
  filter (fun n => label n = s) (insert_by_label x l)
  = filter (fun n => label n = s) l ++ filter (fun n => label n = s) [x].
Proof.
  induction 1 as [|y t Ht IH Hy]; simpl; [done|].
  destruct (String.ltb (label x) (label y)) eqn:E.
  - rewrite (filter_cons _ x), (filter_cons _ x []), filter_nil.
    destruct (decide (label x = s)) as [Hx|Hx]; [|by rewrite app_nil_r].
    assert (filter (fun n => label n = s) (y :: t) = []) as ->; [|done].
    apply filter_none, Forall_cons. split.
    + intros <-. by apply (ltb_true_ne _ _ E).
    + eapply Forall_impl; [exact Hy|]. intros z Hz <-.
      apply (ltb_true_ne _ _ E). apply (anti_symm String.le).
      * by apply ltb_true_le.
      * rewrite Hx. exact Hz.
  - rewrite !(filter_cons _ y), IH. by destruct (decide (label y = s)).
Qed.

Lemma sorted_by_label_stable_acc s l : forall acc,
  StronglySorted label_le acc ->
  filter (fun n => label n = s) (fold_left (fun acc x => insert_by_label x acc) l acc)
  = filter (fun n => label n = s) acc ++ filter (fun n => label n = s) l.
Proof.
  induction l as [|x t IH]; intros acc Hacc; simpl; [by rewrite app_nil_r|].
  rewrite IH by by apply insert_by_label_sorted.
  rewrite insert_by_label_filter by done.
  by rewrite <- (assoc_L (++)), <- filter_app.
Qed.

Lemma sorted_by_label_stable s l :
  filter (fun n => label n = s) (sorted_by_label l) = filter (fun n => label n = s) l.
Proof. apply (sorted_by_label_stable_acc s l []). constructor. Qed.

(** ** The loops of [run] *)

(** [w'] has the blocks and the objects of [w], and possibly more behind
    them. *)
Definition extends (w w' : World) : Prop :=
  (exists N, nodes w' = nodes w ++ N)
  /\ (exists L, py_lists w' = py_lists w ++ L)
  /\ (exists O, optionals w' = optionals w ++ O)
  /\ header_level w' = header_level w.

Lemma extends_refl w : extends w w.
Proof. repeat split; try (exists []; by rewrite app_nil_r). Qed.

Lemma extends_trans w1 w2 w3 : extends w1 w2 -> extends w2 w3 -> extends w1 w3.
Proof.
  intros ([N1 H1] & [L1 H2] & [O1 H3] & H4) ([N2 H5] & [L2 H6] & [O2 H7] & H8).
  repeat split.
  - exists (N1 ++ N2). by rewrite H5, H1, <- (assoc_L (++)).
  - exists (L1 ++ L2). by rewrite H6, H2, <- (assoc_L (++)).
  - exists (O1 ++ O2). by rewrite H7, H3, <- (assoc_L (++)).
  - congruence.
Qed.

Lemma added_app w w' N : nodes w' = nodes w ++ N -> added w w' = N.
Proof. unfold added. intros ->. by rewrite drop_app_length. Qed.

Lemma socket_blocks_no_header a ks lv :
  omap (header_text lv) (socket_blocks a ks) = [].
Proof. induction ks as [|k t IH]; [done|]. simpl. exact IH. Qed.

Lemma node_body_no_header nodeitem category cls doc o a lv :
  omap (header_text lv) (node_body nodeitem category cls doc o a) = [].
Proof.
  unfold node_body. rewrite !omap_app, socket_blocks_no_header.
  unfold see_blocks. by destruct (see_items _).
Qed.

Lemma node_entry_ok h category w w' nodeitem :
  node_entry h category w nodeitem = Ok w' ->
  exists body,
    nodes w' = nodes w ++ Header (header_level w) (Text (label nodeitem)) :: body
    /\ (forall lv, omap (header_text lv) body = [])
    /\ extends w w'.
Proof.
  unfold node_entry.
  destruct (__doc__ (get_nodetype h (nodetype nodeitem))) as [doc|] eqn:Hdoc.
  - rewrite (generate_node_documentation_eq _ _ _ _ _ Hdoc).
    destruct (existsb malformed _); [done|]. intros [= <-].
    eexists. split; [|split].
    + simpl. by rewrite <- (assoc_L (++)).
    + intros lv. apply node_body_no_header.
    + repeat split; simpl; eauto. rewrite <- (assoc_L (++)). eauto.
  - unfold generate_node_documentation. rewrite Hdoc. intros [= <-].
    exists []. split; [done|]. split; [done|].
    repeat split; simpl; eauto; exists []; by rewrite app_nil_r.
Qed.

Lemma nodes_loop_ok h category ns : forall w w',
  for_each (node_entry h category) ns w = Ok w' ->
  exists N,
    nodes w' = nodes w ++ N
    /\ omap (header_text (header_level w)) N = label <$> ns
    /\ extends w w'.
Proof.
  induction ns as [|n t IH]; intros w w'; cbn [for_each].
  - intros [= <-]. exists []. rewrite app_nil_r. split; [done|].
    split; [done|apply extends_refl].
  - destruct (node_entry h category w n) as [w1|] eqn:E1; [|done].
    cbn [mbind result_bind]. intros E2.
    destruct (node_entry_ok _ _ _ _ _ E1) as (body & Hn & Hb & Hx).
    destruct (IH _ _ E2) as (N & Hn' & Hh & Hx').
    exists (Header (header_level w) (Text (label n)) :: body ++ N).
    split; [|split].
    + rewrite Hn', Hn, <- (assoc_L (++)). done.
    + destruct Hx as (_ & _ & _ & Hlv). rewrite Hlv in Hh.
      change (Header (header_level w) (Text (label n)) :: body ++ N)
        with ([Header (header_level w) (Text (label n))] ++ body ++ N).
      rewrite !omap_app, Hb, Hh. simpl. by rewrite decide_True.
    + by eapply extends_trans.
Qed.

(** The blocks a category adds before its nodes. *)
Definition category_head (lv : nat) (category : ArmNodeCategory) : list Node :=
  Header lv (Text (name category))
  :: (if String.eqb (description category) "" then []
      else [Paragraph (Text (description category))]).

Lemma category_entry_ok h w w' category :
  category_entry h w category = Ok w' ->
  exists N,
    nodes w' = nodes w ++ category_head (header_level w) category ++ N
    /\ omap (header_text (S (header_level w))) N
       = label <$> sorted_by_label (get_all_nodes category ++ deprecated_nodes category)
    /\ extends w w'.
Proof.
  unfold category_entry.
  set (w0 := enter_sublevel _).
  destruct (for_each _ _ w0) as [w1|] eqn:E; [|done].
  cbn [mbind result_bind]. intros [= <-].
  destruct (nodes_loop_ok _ _ _ _ _ E) as (N & Hn & Hh & Hx).
  exists N. split; [|split].
  - cbn [leave_sublevel nodes]. rewrite Hn. unfold w0, category_head.
    destruct (String.eqb (description category) ""); simpl;
      by rewrite <- !(assoc_L (++)).
  - rewrite <- Hh. unfold w0. by destruct (String.eqb (description category) "").
  - destruct Hx as ([N1 H1] & [L1 H2] & [O1 H3] & H4).
    repeat split; cbn [leave_sublevel nodes py_lists optionals header_level].
    + rewrite Hn. unfold w0.
      destruct (String.eqb (description category) ""); simpl;
        rewrite <- ?(assoc_L (++)); eauto.
    + rewrite H2. unfold w0.
      destruct (String.eqb (description category) ""); simpl; eauto.
    + rewrite H3. unfold w0.
      destruct (String.eqb (description category) ""); simpl; eauto.
    + rewrite H4. unfold w0.
      by destruct (String.eqb (description category) "").
Qed.

Lemma for_each_raise_at {S A} (body : S -> A -> result S) (l : list A) (x : A) :
  x ∈ l -> (forall s, body s x = Raise ValueError) ->
  forall s, for_each body l s = Raise ValueError.
Proof.
  intros Hx Hb. induction l as [|y t IH]; intros s; [by apply elem_of_nil in Hx|].
  cbn [for_each]. apply elem_of_cons in Hx as [<-|Hx].
  - by rewrite Hb.
  - destruct (body s y) as [s'|[]]; [|done]. cbn [mbind result_bind]. by apply IH.
Qed.

Lemma generate_node_documentation_raise h nodeitem category doc part :
  __doc__ (get_nodetype h (nodetype nodeitem)) = Some doc ->
  part ∈ Py.split "@" doc -> malformed part = true ->
  forall w, generate_node_documentation h nodeitem category w = Raise ValueError.
Proof.
  intros Hdoc Hin Hm w. rewrite (generate_node_documentation_eq _ _ _ _ _ Hdoc).
  assert (existsb malformed (Py.split "@" doc) = true) as ->; [|done].
  apply existsb_exists. exists part. split; [by apply list_elem_of_In|done].
Qed.

Lemma category_entry_raise h category nodeitem :
  nodeitem ∈ get_all_nodes category ++ deprecated_nodes category ->
  (forall w, generate_node_documentation h nodeitem category w = Raise ValueError) ->
  forall w, category_entry h w category = Raise ValueError.
Proof.
  intros Hin Hg w. unfold category_entry.
  rewrite (for_each_raise_at _ _ nodeitem); [done| |].
  - by rewrite sorted_by_label_perm.
  - intros s. unfold node_entry. apply Hg.
Qed.

Lemma run_raise h category :
  category ∈ get_all_categories h ->
  (forall w, category_entry h w category = Raise ValueError) ->
  run h = Raise ValueError.
Proof.
  intros Hin Hc. unfold run. cbv zeta.
  destruct (new_list _) as [a w0].
  by rewrite (for_each_raise_at _ _ category).
Qed.

Lemma for_each_returns {S A} (body : S -> A -> result S) (l : list A) :
  (forall x, x ∈ l -> forall s, exists s', body s x = Ok s') ->
  forall s, exists s', for_each body l s = Ok s'.
Proof.
  induction l as [|x t IH]; intros Hb s; cbn [for_each]; [by eexists|].
  destruct (Hb x (list_elem_of_here _ _) s) as [s1 ->]. cbn [mbind result_bind].
  apply IH. intros y Hy. apply Hb. by right.
Qed.

Lemma node_entry_returns h category nodeitem :
  well_formed_doc h nodeitem ->
  forall w, exists w', node_entry h category w nodeitem = Ok w'.
Proof.
  intros Hwf w. unfold node_entry.
  destruct (__doc__ (get_nodetype h (nodetype nodeitem))) as [doc|] eqn:Hdoc.
  - rewrite (generate_node_documentation_eq _ _ _ _ _ Hdoc), (Hwf _ Hdoc). by eexists.
  - unfold generate_node_documentation. rewrite Hdoc. by eexists.
Qed.

Lemma category_entry_returns h category :
  (forall n, n ∈ get_all_nodes category ++ deprecated_nodes category ->
             well_formed_doc h n) ->
  forall w, exists w', category_entry h w category = Ok w'.
Proof.
  intros Hwf w. unfold category_entry.
  set (w0 := enter_sublevel _).
  destruct (for_each_returns (node_entry h category)
              (sorted_by_label (get_all_nodes category ++ deprecated_nodes category)))
    with (s := w0) as [w1 ->].
  - intros n Hn. apply node_entry_returns, Hwf. by rewrite <- sorted_by_label_perm.
  - cbn [mbind result_bind]. by eexists.
Qed.

(** * The claims *)

(** C1 (as amended): a fragment tagged [input ], [output ] or [option ]
    whose payload has no colon is not skipped: unpacking the split result
    raises [ValueError], nothing catches it, and both the documentation of
    the node and the whole run end with that exception. *)
Theorem malformed_socket_tag_aborts h category nodeitem doc part k payload :
  category ∈ get_all_categories h ->
  nodeitem ∈ get_all_nodes category ++ deprecated_nodes category ->
  __doc__ (get_nodetype h (nodetype nodeitem)) = Some doc ->
  part ∈ Py.split "@" doc ->
  socket_tag part = Some (k, payload) ->
  has_colon payload = false ->
  (forall w, generate_node_documentation h nodeitem category w = Raise ValueError)
  /\ run h = Raise ValueError.
Proof.
  intros Hc Hn Hdoc Hp Ht Hcolon.
  assert (malformed part = true) as Hm.
  { unfold malformed, malformed_socket. by rewrite Ht, Hcolon. }
  pose proof (generate_node_documentation_raise _ _ category _ _ Hdoc Hp Hm) as Hg.
  split; [done|].
  eapply run_raise; [done|]. by eapply category_entry_raise.
Qed.

Lemma malformed_socket_tag_aborts_witness :
  run (sample_host (Some "Adds.@input Value") [sample_category]) = Raise ValueError.
Proof.
  refine (proj2 (malformed_socket_tag_aborts
            (sample_host (Some "Adds.@input Value") [sample_category])
            sample_category sample_item "Adds.@input Value" "input Value"
            KInput "Value" _ _ _ _ _ _)).
  - apply list_elem_of_here.
  - apply list_elem_of_here.
  - reflexivity.
  - apply list_elem_of_further, list_elem_of_here.
  - reflexivity.
  - reflexivity.
Defined.

(** C1, the claim as stated fails: with one [input] tag without a colon the
    run ends with [ValueError]; the well-formed [output] tag behind it is
    never reached and no document is produced. *)
Lemma malformed_tag_not_skipped :
  run (sample_host (Some "Adds two values.@input Value@output Result: the sum")
                   [sample_category])
  = Raise ValueError.
Proof. vm_compute. reflexivity. Qed.

(** C2 (as amended): for a node whose docstring is absent the call of
    [generate_node_documentation] returns without adding anything, so the
    node subtree is the node header alone: no image block, no description,
    no sections, no sources; this is not an error. *)
Theorem node_without_docstring_is_header_only h category w nodeitem :
  __doc__ (get_nodetype h (nodetype nodeitem)) = None ->
  generate_node_documentation h nodeitem category w = Ok w
  /\ node_entry h category w nodeitem
     = Ok (Document_add (Header (header_level w) (Text (label nodeitem))) w)
  /\ forall w', node_entry h category w nodeitem = Ok w' ->
       added w w' = [Header (header_level w) (Text (label nodeitem))].
Proof.
  intros Hdoc.
  assert (forall w0, generate_node_documentation h nodeitem category w0 = Ok w0) as Hg.
  { intros w0. unfold generate_node_documentation. by rewrite Hdoc. }
  split; [done|]. unfold node_entry. rewrite Hg. split; [done|].
  intros w' [= <-]. by apply added_app.
Qed.

Lemma node_without_docstring_is_header_only_witness :
  node_entry (sample_host None [sample_category]) sample_category empty_world sample_item
  = Ok (Document_add (Header 1 (Text "Math")) empty_world).
Proof.
  exact (proj1 (proj2 (node_without_docstring_is_header_only
                         (sample_host None [sample_category]) sample_category
                         empty_world sample_item eq_refl))).
Defined.

(** C2, the claim as stated fails: the run over one node without docstring
    succeeds, and the node's subtree is its header with no image block
    behind it; the document has no image block at all. *)
Lemma node_without_docstring_has_no_image :
  exists w',
    run (sample_host None [sample_category]) = Ok w'
    /\ drop 6 (nodes w') = [Header 2 (Text "Math"); Header 3 (Text "Math")]
    /\ filter (fun n => is_image n = true) (nodes w') = [].
Proof. eexists. split; [vm_compute; reflexivity|]. split; reflexivity. Qed.

(** C8: the entry of a category returns when no docstring of its nodes has
    a malformed tag, and the node headers it emits, in the order of
    emission, are the labels of the active and the deprecated nodes taken
    together and sorted by label: the sequence is a permutation of both
    lists, it is ascending in the order of strings (code by code) for any
    two positions, and nodes with the same label keep the order
    active-then-deprecated of the chain (the sort is stable); the declared
    order plays no other part. *)
Theorem category_nodes_sorted_by_label h w category :
  ((forall n, n ∈ get_all_nodes category ++ deprecated_nodes category ->
              well_formed_doc h n) ->
   exists w', category_entry h w category = Ok w')
  /\ forall w', category_entry h w category = Ok w' ->
  exists ns,
    omap (header_text (S (header_level w))) (added w w') = label <$> ns
    /\ ns ≡ₚ get_all_nodes category ++ deprecated_nodes category
    /\ StronglySorted label_le ns
    /\ forall s, filter (fun n => label n = s) ns
               = filter (fun n => label n = s)
                        (get_all_nodes category ++ deprecated_nodes category).
Proof.
  split; [intros Hwf; by apply category_entry_returns|].
  intros w' E. destruct (category_entry_ok _ _ _ _ E) as (N & Hn & Hh & _).
  exists (sorted_by_label (get_all_nodes category ++ deprecated_nodes category)).
  split; [|split; [|split]].
  - rewrite (added_app _ _ _ Hn), omap_app, Hh.
    unfold category_head.
    destruct (String.eqb (description category) ""); simpl;
      rewrite decide_False by lia; done.
  - apply sorted_by_label_perm.
  - apply sorted_by_label_sorted.
  - intros s. apply sorted_by_label_stable.
Qed.

Lemma category_nodes_sorted_by_label_witness :
  exists ns,
    omap (header_text 2) (added empty_world mixed_world) = label <$> ns
    /\ ns ≡ₚ get_all_nodes mixed_category ++ deprecated_nodes mixed_category
    /\ StronglySorted label_le ns
    /\ forall s, filter (fun n => label n = s) ns
               = filter (fun n => label n = s)
                        (get_all_nodes mixed_category ++ deprecated_nodes mixed_category).
Proof.
  apply (proj2 (category_nodes_sorted_by_label
                  (sample_host (Some "Doc.") [mixed_category]) empty_world
                  mixed_category) mixed_world).
  vm_compute. reflexivity.
Defined.

Example mixed_category_order :
  sorted_by_label (get_all_nodes mixed_category ++ deprecated_nodes mixed_category)
  = [mkNodeItem "LNGateNode" "Gate"; mkNodeItem "LNMergeNode" "Merge";
     mkNodeItem "LNSwitchNode" "Switch"].
Proof. reflexivity. Qed.

(** ** The order of the socket sections *)

Lemma first_kinds_not_seen parts : forall seen k,
  k ∈ first_kinds seen parts -> k ∉ seen.
Proof.
  induction parts as [|part rest IH]; intros seen k; simpl.
  - by intros ?%elem_of_nil.
  - destruct (socket_kind part) as [k'|]; [|by apply IH].
    case_bool_decide as Hk'; [by apply IH|].
    intros [->|Hk]%elem_of_cons; [done|].
    apply IH in Hk. intros Hs. apply Hk. by right.
Qed.

Lemma first_kinds_first_tag parts : forall seen k,
  k ∈ first_kinds seen parts -> exists i, first_tag k parts = Some i.
Proof.
  induction parts as [|part rest IH]; intros seen k; simpl.
  - by intros ?%elem_of_nil.
  - destruct (decide (socket_kind part = Some k)) as [E|E]; [by eauto|].
    assert (forall seen', k ∈ first_kinds seen' rest ->
                          exists i, S <$> first_tag k rest = Some i) as Hrest.
    { intros seen' Hk. destruct (IH _ _ Hk) as [i ->]. by eauto. }
    destruct (socket_kind part) as [k'|]; [|by apply Hrest].
    case_bool_decide; [by apply Hrest|].
    intros [->|Hk]%elem_of_cons; [done|]. by eapply Hrest.
Qed.

Lemma first_kinds_complete parts : forall seen k part,
  k ∉ seen -> part ∈ parts -> socket_kind part = Some k ->
  k ∈ first_kinds seen parts.
Proof.
  induction parts as [|p rest IH]; intros seen k part Hs Hin Hk.
  - by apply elem_of_nil in Hin.
  - simpl. apply elem_of_cons in Hin as [<-|Hin].
    + rewrite Hk. rewrite bool_decide_eq_false_2 by done. by left.
    + destruct (socket_kind p) as [k'|]; [|by eapply IH].
      case_bool_decide; [by eapply IH|].
      destruct (decide (k = k')) as [->|Hne]; [by left|].
      right. eapply IH; [|done..]. by intros [?|?]%elem_of_cons.
Qed.

Lemma first_kinds_NoDup parts : forall seen, NoDup (first_kinds seen parts).
Proof.
  induction parts as [|part rest IH]; intros seen; simpl; [constructor|].
  destruct (socket_kind part) as [k|]; [|done].
  case_bool_decide; [done|]. constructor; [|done].
  intros Hk%first_kinds_not_seen. apply Hk. by left.
Qed.

Lemma first_kinds_order parts : forall seen ks1 k1 ks2 k2 ks3,
  first_kinds seen parts = ks1 ++ k1 :: ks2 ++ k2 :: ks3 ->
  exists i j, first_tag k1 parts = Some i /\ first_tag k2 parts = Some j /\ i < j.
Proof.
  induction parts as [|part rest IH]; intros seen ks1 k1 ks2 k2 ks3; simpl.
  - by destruct ks1.
  - assert (forall seen' ks, first_kinds seen' rest = ks ++ k1 :: ks2 ++ k2 :: ks3 ->
              socket_kind part <> Some k1 -> socket_kind part <> Some k2 ->
              exists i j, (if decide (socket_kind part = Some k1) then Some 0
                           else S <$> first_tag k1 rest) = Some i
                          /\ (if decide (socket_kind part = Some k2) then Some 0
                              else S <$> first_tag k2 rest) = Some j /\ i < j) as Hrest.
    { intros seen' ks E N1 N2. destruct (IH _ _ _ _ _ _ E) as (i & j & -> & -> & Hij).
      exists (S i), (S j). rewrite !decide_False by done.
      split; [done|]. split; [done|lia]. }
    assert (forall seen' ks, first_kinds seen' rest = ks ++ k1 :: ks2 ++ k2 :: ks3 ->
              (k1 ∉ seen') /\ (k2 ∉ seen')) as Hout.
    { intros seen' ks E. split; apply (first_kinds_not_seen rest); rewrite E.
      - apply elem_of_app. right. by left.
      - apply elem_of_app. right. right. apply elem_of_app. right. by left. }
    destruct (socket_kind part) as [k|] eqn:Hk.
    + case_bool_decide as Hs.
      * intros E. destruct (Hout _ _ E) as [H1 H2].
        apply (Hrest _ _ E); intros [= ->]; done.
      * destruct ks1 as [|k' ks1']; simpl.
        -- intros [= -> E].
           assert (k2 ∈ first_kinds (k1 :: seen) rest) as H2.
           { rewrite E. apply elem_of_app. right. by left. }
           destruct (first_kinds_first_tag _ _ _ H2) as [j Hj].
           apply first_kinds_not_seen in H2.
           exists 0, (S j). rewrite decide_True by done.
           rewrite decide_False, Hj.
           ++ split; [done|]. split; [done|lia].
           ++ intros [= ->]. apply H2. by left.
        -- intros [= -> E]. destruct (Hout _ _ E) as [H1 H2].
           apply (Hrest _ _ E); intros [= ->]; [apply H1|apply H2]; by left.
    + intros E. by apply (Hrest _ _ E).
Qed.

Lemma tags_of_nonempty k parts :
  tags_of k parts <> [] <-> exists part, part ∈ parts /\ socket_kind part = Some k.
Proof.
  unfold tags_of. split.
  - intros Hne. destruct (filter _ parts) as [|part t] eqn:E; [done|].
    assert (part ∈ filter (fun part => socket_kind part = Some k) parts) as Hin.
    { rewrite E. by left. }
    apply list_elem_of_filter in Hin as [? ?]. eauto.
  - intros (part & Hin & Hk) E.
    assert (part ∈ filter (fun part => socket_kind part = Some k) parts) as Hf.
    { by apply list_elem_of_filter. }
    rewrite E in Hf. by apply elem_of_nil in Hf.
Qed.

Lemma first_kinds_tags k parts :
  k ∈ first_kinds [] parts <-> tags_of k parts <> [].
Proof.
  rewrite tags_of_nonempty. split.
  - intros Hk. destruct (first_kinds_first_tag _ _ _ Hk) as [i Hi].
    clear Hk. revert i Hi. induction parts as [|part rest IH]; intros i; simpl; [done|].
    destruct (decide (socket_kind part = Some k)) as [E|E].
    + intros _. exists part. split; [by left|done].
    + destruct (first_tag k rest) as [j|]; [|done]. intros _.
      destruct (IH j eq_refl) as (p & Hin & Hp). exists p. split; [by right|done].
  - intros (part & Hin & Hk). eapply first_kinds_complete; [|done..].
    by intros ?%elem_of_nil.
Qed.

Lemma generate_node_documentation_ok h nodeitem category w w' doc :
  __doc__ (get_nodetype h (nodetype nodeitem)) = Some doc ->
  generate_node_documentation h nodeitem category w = Ok w' ->
  existsb malformed (Py.split "@" doc) = false
  /\ w' = documented nodeitem category (get_nodetype h (nodetype nodeitem)) doc w.
Proof.
  intros Hdoc. rewrite (generate_node_documentation_eq _ _ _ _ _ Hdoc).
  destruct (existsb malformed _); [done|]. by intros [= <-].
Qed.

Lemma generate_node_documentation_returns h nodeitem category w doc :
  __doc__ (get_nodetype h (nodetype nodeitem)) = Some doc ->
  existsb malformed (Py.split "@" doc) = false ->
  exists w', generate_node_documentation h nodeitem category w = Ok w'.
Proof.
  intros Hdoc Hm. rewrite (generate_node_documentation_eq _ _ _ _ _ Hdoc), Hm.
  by eexists.
Qed.

Lemma see_blocks_nonempty a items :
  see_blocks false a items
  = if nonempty items then section_blocks "See also:" a else [].
Proof. by destruct items. Qed.

(** C3 (as amended): the "See also" section, present when the docstring has
    a [see] or [seeNode] tag, always comes first, directly behind the
    description paragraph; the image block follows it (it follows the
    description when there is no such tag) and precedes every Inputs,
    Outputs and Options section; those three follow the image, each once,
    in the order of the first tag of their kind in the text. *)
Theorem see_also_then_image_then_sockets h nodeitem category w doc :
  __doc__ (get_nodetype h (nodetype nodeitem)) = Some doc ->
  let parts := Py.split "@" doc in
  let a := length (py_lists w) in
  (existsb malformed parts = false ->
   exists w', generate_node_documentation h nodeitem category w = Ok w')
  /\ forall w', generate_node_documentation h nodeitem category w = Ok w' ->
  added w w'
  = [Optional (length (optionals w)); Paragraph (Text (description_of doc))]
      ++ (if nonempty (see_items parts) then section_blocks "See also:" a else [])
      ++ [image_block nodeitem category]
      ++ socket_blocks a (first_kinds [] parts)
      ++ [sources_paragraph (get_nodetype h (nodetype nodeitem))]
  /\ NoDup (first_kinds [] parts)
  /\ (forall k, k ∈ first_kinds [] parts <-> tags_of k parts <> [])
  /\ (forall ks1 k1 ks2 k2 ks3,
        first_kinds [] parts = ks1 ++ k1 :: ks2 ++ k2 :: ks3 ->
        exists i j, first_tag k1 parts = Some i /\ first_tag k2 parts = Some j /\ i < j).
Proof.
  intros Hdoc parts a.
  split; [by apply generate_node_documentation_returns|]. intros w' Hg.
  destruct (generate_node_documentation_ok _ _ _ _ _ _ Hdoc Hg) as [_ ->].
  split; [|split; [|split]].
  - rewrite <- see_blocks_nonempty. by apply added_app.
  - apply first_kinds_NoDup.
  - intros k. apply first_kinds_tags.
  - apply first_kinds_order.
Qed.

Lemma see_also_then_image_then_sockets_witness :
  added empty_world world_input_then_see
  = [Optional 0; Paragraph (Text "Adds."); Paragraph (Bold (Text "See also:"));
     UnorderedList 0; image_block sample_item sample_category;
     Paragraph (Bold (Text "Inputs:")); UnorderedList 1;
     sources_paragraph (sample_class (Some doc_input_then_see))].
Proof.
  assert (generate_node_documentation
            (sample_host (Some doc_input_then_see) [sample_category])
            sample_item sample_category empty_world = Ok world_input_then_see) as Hg
    by (vm_compute; reflexivity).
  rewrite (proj1 (proj2 (see_also_then_image_then_sockets
                    (sample_host (Some doc_input_then_see) [sample_category])
                    sample_item sample_category empty_world
                    doc_input_then_see eq_refl) world_input_then_see Hg)).
  vm_compute. reflexivity.
Defined.

(** C3, the claim as stated fails: in ["Adds.@input a: first@see the manual"]
    the first [input] tag precedes the first [see] tag, yet the "See also"
    header precedes the "Inputs" header, and the image block stands behind
    the "See also" section, not before it. *)
Lemma see_also_precedes_image_and_inputs :
  generate_node_documentation
    (sample_host (Some doc_input_then_see) [sample_category])
    sample_item sample_category empty_world = Ok world_input_then_see
  /\ nodes world_input_then_see
     = [Optional 0; Paragraph (Text "Adds."); Paragraph (Bold (Text "See also:"));
        UnorderedList 0; image_block sample_item sample_category;
        Paragraph (Bold (Text "Inputs:")); UnorderedList 1;
        sources_paragraph (sample_class (Some doc_input_then_see))]
  /\ first_tag KInput (Py.split "@" doc_input_then_see) = Some 1
  /\ see_item <$> Py.split "@" doc_input_then_see
     = [None; None; Some (Span (Italic (Text "the manual")))].
Proof. repeat split; vm_compute; reflexivity. Qed.

(** ** Section headers and item lists *)

#[global] Instance kind_title_inj : Inj (=) (=) kind_title.
Proof. intros [] []; simpl; intros E; done. Qed.

Lemma socket_blocks_titles a ks :
  omap section_title (socket_blocks a ks) = kind_title <$> ks.
Proof. induction ks as [|k t IH]; [done|]. simpl. by f_equal. Qed.

Lemma socket_blocks_app a ks1 ks2 :
  socket_blocks a (ks1 ++ ks2) = socket_blocks a ks1 ++ socket_blocks a ks2.
Proof. unfold socket_blocks. apply flat_map_app. Qed.

Lemma node_body_titles nodeitem category cls doc o a :
  omap section_title (node_body nodeitem category cls doc o a)
  = (if nonempty (see_items (Py.split "@" doc)) then ["See also:"] else [])
      ++ (kind_title <$> first_kinds [] (Py.split "@" doc)).
Proof.
  unfold node_body. rewrite !omap_app, socket_blocks_titles, see_blocks_nonempty.
  destruct (nonempty _); simpl; by rewrite app_nil_r.
Qed.

Lemma node_body_titles_NoDup nodeitem category cls doc o a :
  NoDup (omap section_title (node_body nodeitem category cls doc o a)).
Proof.
  rewrite node_body_titles.
  assert (NoDup (kind_title <$> first_kinds [] (Py.split "@" doc))) as Hk.
  { apply (NoDup_fmap_2 kind_title), first_kinds_NoDup. }
  destruct (nonempty _); [|done]. simpl. constructor; [|done].
  intros (k & E & _)%list_elem_of_fmap. by destruct k.
Qed.

Lemma items_at_documented nodeitem category cls doc w i x :
  [see_items (Py.split "@" doc); socket_items KInput (Py.split "@" doc);
   socket_items KOutput (Py.split "@" doc); socket_items KOption (Py.split "@" doc)]
    !! i = Some x ->
  items_at (documented nodeitem category cls doc w) (length (py_lists w) + i) = x.
Proof.
  intros Hi. unfold items_at, documented. cbn [py_lists].
  rewrite lookup_app_r by lia.
  replace (length (py_lists w) + i - length (py_lists w)) with i by lia.
  by rewrite Hi.
Qed.

Lemma socket_items_for k parts :
  existsb malformed parts = false ->
  Forall2 (socket_item_for k) (tags_of k parts) (socket_items k parts).
Proof.
  unfold tags_of. induction parts as [|part rest IH]; [constructor|].
  cbn [existsb]. intros [Hp Hrest]%orb_false_iff.
  rewrite filter_cons, socket_items_cons. unfold socket_item_of, socket_kind.
  destruct (socket_tag part) as [[k' payload]|] eqn:Ht;
    cbn [fmap option_fmap option_map fst].
  - destruct (decide (k' = k)) as [->|Hne].
    + rewrite decide_True by done.
      assert (has_colon payload = true) as Hc.
      { unfold malformed, malformed_socket in Hp. rewrite Ht in Hp.
        apply orb_false_iff in Hp as [Hp _]. by apply negb_false_iff in Hp. }
      destruct (socket_item_ok _ Hc) as [x Hx]. rewrite Hx. cbn [from_result].
      constructor; [|by apply IH]. by exists payload.
    + rewrite decide_False by congruence. by apply IH.
  - rewrite decide_False by done. by apply IH.
Qed.

Lemma see_items_for parts :
  Forall2 (fun part item => see_item part = Some item) (see_tags parts) (see_items parts).
Proof.
  unfold see_tags. induction parts as [|part rest IH]; [constructor|].
  rewrite filter_cons, see_items_cons.
  destruct (see_item part) as [x|] eqn:Hx.
  - rewrite decide_True by by eexists. constructor; [|done]. by rewrite Hx.
  - rewrite decide_False; [done|]. by intros [? ?].
Qed.

Lemma see_tags_nonempty parts :
  nonempty (see_items parts) = nonempty (see_tags parts).
Proof.
  pose proof (see_items_for parts) as HF.
  destruct HF; done.
Qed.

(** C4: in the subtree of a documented node no section header occurs twice;
    the header of a kind is there exactly when the docstring has a tag of
    that kind, with its list block right behind it; the titles stand in the
    order in which the loops meet the first tag of each kind; and the list
    of a kind holds exactly one item for each tag of that kind, in the order
    of the tags.  A tag is a fragment of [doc.split("@")] that starts with
    the prefix of the kind; when the text before the first [@] starts with
    no prefix, the tags are fragments behind an [@].  [see] and [seeNode]
    share the "See also" section. *)
Theorem section_once_with_items_in_order h nodeitem category w doc :
  __doc__ (get_nodetype h (nodetype nodeitem)) = Some doc ->
  let parts := Py.split "@" doc in
  let a := length (py_lists w) in
  (existsb malformed parts = false ->
   exists w', generate_node_documentation h nodeitem category w = Ok w')
  /\ forall w', generate_node_documentation h nodeitem category w = Ok w' ->
  NoDup (omap section_title (added w w'))
  /\ omap section_title (added w w')
     = (if nonempty (see_tags parts) then ["See also:"] else [])
         ++ (kind_title <$> first_kinds [] parts)
  /\ (forall k,
        (tags_of k parts = [] -> kind_title k ∉ omap section_title (added w w'))
        /\ (tags_of k parts <> [] ->
            exists pre post,
              added w w' = pre ++ section_blocks (kind_title k) (kind_addr a k) ++ post)
        /\ Forall2 (socket_item_for k) (tags_of k parts) (items_at w' (kind_addr a k)))
  /\ (see_tags parts = [] -> "See also:" ∉ omap section_title (added w w'))
  /\ (see_tags parts <> [] ->
      exists pre post, added w w' = pre ++ section_blocks "See also:" a ++ post)
  /\ Forall2 (fun part item => see_item part = Some item)
             (see_tags parts) (items_at w' a)
  /\ (forall leading rest,
        parts = leading :: rest -> untagged leading ->
        see_tags parts = see_tags rest /\ forall k, tags_of k parts = tags_of k rest).
Proof.
  intros Hdoc parts a.
  split; [by apply generate_node_documentation_returns|]. intros w' Hg.
  destruct (generate_node_documentation_ok _ _ _ _ _ _ Hdoc Hg) as [Hm ->].
  set (cls := get_nodetype h (nodetype nodeitem)).
  assert (added w (documented nodeitem category cls doc w)
          = node_body nodeitem category cls doc (length (optionals w)) a) as ->
    by by apply added_app.
  assert (forall k, kind_title k <> "See also:") as Hsee by by intros [].
  split; [apply node_body_titles_NoDup|].
  rewrite node_body_titles, see_tags_nonempty. fold parts.
  split; [done|]. split; [|split; [|split; [|split]]].
  - intros k. split; [|split].
    + intros Hk [Hin|Hin]%elem_of_app.
      * destruct (nonempty (see_tags parts)); [|by apply elem_of_nil in Hin].
        apply list_elem_of_singleton in Hin. by apply (Hsee k).
      * apply (list_elem_of_fmap_inj kind_title) in Hin.
        by apply first_kinds_tags in Hin.
    + intros Hk%first_kinds_tags. fold parts in Hk.
      apply list_elem_of_split in Hk as (ks1 & ks2 & Hks).
      exists ([Optional (length (optionals w)); Paragraph (Text (description_of doc))]
                ++ see_blocks false a (see_items parts)
                ++ [image_block nodeitem category] ++ socket_blocks a ks1),
             (socket_blocks a ks2 ++ [sources_paragraph cls]).
      unfold node_body. fold parts. rewrite Hks, socket_blocks_app.
      change (socket_blocks a (k :: ks2))
        with (section_blocks (kind_title k) (kind_addr a k) ++ socket_blocks a ks2).
      by rewrite <- !(assoc_L (++)).
    + replace (kind_addr a k) with (a + match k with KInput => 1 | KOutput => 2 | KOption => 3 end)
        by by destruct k.
      unfold a.
      rewrite (items_at_documented _ _ _ _ _ _ (socket_items k parts)) by by destruct k.
      by apply socket_items_for.
  - intros Hs [Hin|Hin]%elem_of_app.
    + rewrite Hs in Hin. by apply elem_of_nil in Hin.
    + apply list_elem_of_fmap in Hin as (k & E & _). by apply (Hsee k).
  - intros Hs. unfold node_body. fold parts.
    rewrite see_blocks_nonempty, see_tags_nonempty.
    destruct (see_tags parts); [done|]. cbn [nonempty].
    by eexists [_; _], _.
  - rewrite <- (Nat.add_0_r a). unfold a.
    rewrite (items_at_documented _ _ _ _ _ _ (see_items parts)) by done.
    apply see_items_for.
  - intros leading rest -> (Hs & Ht & _). unfold see_tags, tags_of, socket_kind.
    split; [|intros k]; rewrite filter_cons_False; try done.
    + rewrite Hs. by intros [? ?].
    + by rewrite Ht.
Qed.

Lemma section_once_with_items_in_order_witness :
  omap section_title (added empty_world world_two_inputs) = ["Inputs:"; "Outputs:"]
  /\ items_at world_two_inputs 1
     = [Span (Text "`a`: first"); Span (Text "`b`: second")].
Proof.
  assert (generate_node_documentation
            (sample_host (Some doc_two_inputs) [sample_category])
            sample_item sample_category empty_world = Ok world_two_inputs) as Hg
    by (vm_compute; reflexivity).
  destruct (proj2 (section_once_with_items_in_order
              (sample_host (Some doc_two_inputs) [sample_category])
              sample_item sample_category empty_world
              doc_two_inputs eq_refl) world_two_inputs Hg) as (_ & Ht & _).
  split; [rewrite Ht|]; vm_compute; reflexivity.
Defined.

(** ** The description paragraph *)

Lemma rstrip_by_blank strip s : blank s = true -> blank (Py.rstrip_by strip s) = true.
Proof.
  unfold blank. induction s as [|c t IH]; [done|]. simpl.
  intros [Hc Ht]%andb_true_iff. specialize (IH Ht).
  destruct (Py.rstrip_by strip t) as [|c' r].
  - destruct (strip c); simpl; [done|]. by rewrite Hc.
  - simpl in *. by rewrite Hc, IH.
Qed.

Lemma split_ws_blank s : blank s = true -> Py.split_ws s = [].
Proof.
  unfold blank, Py.split_ws. induction s as [|c t IH]; [done|]. simpl.
  intros [Hc Ht]%andb_true_iff. rewrite Hc. simpl. by apply IH.
Qed.

Lemma collapse_blank s : blank s = true -> collapse s = "".
Proof. intros Hs. unfold collapse. by rewrite (split_ws_blank _ Hs). Qed.

Lemma untagged_not_malformed parts :
  Forall untagged parts -> existsb malformed parts = false.
Proof.
  induction 1 as [|part rest (_ & Ht & Hd) _ IH]; [done|].
  cbn [existsb]. rewrite IH, orb_false_r.
  unfold malformed, malformed_socket. by rewrite Ht, Hd.
Qed.

Lemma untagged_see_items parts : Forall untagged parts -> see_items parts = [].
Proof.
  induction 1 as [|part rest (Hs & _ & _) _ IH]; [done|].
  by rewrite see_items_cons, Hs.
Qed.

Lemma untagged_first_kinds parts seen :
  Forall untagged parts -> first_kinds seen parts = [].
Proof.
  induction 1 as [|part rest (_ & Ht & _) _ IH]; [done|].
  cbn [first_kinds]. unfold socket_kind. by rewrite Ht.
Qed.

Lemma untagged_last_notice parts : Forall untagged parts -> last_notice parts = None.
Proof.
  induction 1 as [|part rest (_ & _ & Hd) _ IH]; [done|].
  by rewrite last_notice_cons, Hd.
Qed.

Lemma content_at_documented nodeitem category cls doc w :
  content_at (documented nodeitem category cls doc w) (length (optionals w))
  = last_notice (Py.split "@" doc).
Proof.
  unfold content_at, documented. cbn [optionals].
  rewrite lookup_app_r by lia. by rewrite Nat.sub_diag.
Qed.

(** C5 (as amended): the description paragraph block is always emitted,
    directly behind the deprecation slot; when the text before the first
    [@] is empty or all whitespace the paragraph is there with the empty
    string as its text.  A docstring without any recognised tag is
    documented without error, and its blocks behind the header are exactly
    the deprecation slot (left empty), the description paragraph, the image
    and the sources paragraph: no section blocks. *)
Theorem description_paragraph_always_emitted h nodeitem category w doc :
  __doc__ (get_nodetype h (nodetype nodeitem)) = Some doc ->
  let parts := Py.split "@" doc in
  let o := length (optionals w) in
  (forall w', generate_node_documentation h nodeitem category w = Ok w' ->
     exists rest,
       added w w' = Optional o :: Paragraph (Text (description_of doc)) :: rest)
  /\ (blank (default "" (head parts)) = true -> description_of doc = "")
  /\ (Forall untagged parts ->
      exists w',
        generate_node_documentation h nodeitem category w = Ok w'
        /\ added w w'
           = [Optional o; Paragraph (Text (description_of doc));
              image_block nodeitem category;
              sources_paragraph (get_nodetype h (nodetype nodeitem))]
        /\ content_at w' o = None).
Proof.
  intros Hdoc parts o. split; [|split].
  - intros w' Hg.
    destruct (generate_node_documentation_ok _ _ _ _ _ _ Hdoc Hg) as [_ ->].
    eexists. by apply added_app.
  - intros Hb. unfold description_of. fold parts.
    by apply collapse_blank, rstrip_by_blank.
  - intros Hu. rewrite (generate_node_documentation_eq _ _ _ _ _ Hdoc). fold parts.
    rewrite (untagged_not_malformed _ Hu). eexists. split; [done|]. split.
    + apply added_app. cbn [documented nodes]. f_equal.
      unfold node_body. fold parts.
      by rewrite (untagged_see_items _ Hu), (untagged_first_kinds _ _ Hu).
    + rewrite content_at_documented. by apply untagged_last_notice.
Qed.

Lemma description_paragraph_always_emitted_witness :
  description_of "@" = ""
  /\ exists w',
       generate_node_documentation (sample_host (Some "@") [sample_category])
         sample_item sample_category empty_world = Ok w'
       /\ added empty_world w'
          = [Optional 0; Paragraph (Text (description_of "@"));
             image_block sample_item sample_category;
             sources_paragraph (sample_class (Some "@"))]
       /\ content_at w' 0 = None.
Proof.
  destruct (description_paragraph_always_emitted
              (sample_host (Some "@") [sample_category]) sample_item
              sample_category empty_world "@" eq_refl) as (_ & Hb & Hu).
  split; [by apply Hb|]. apply Hu.
  repeat constructor.
Defined.

(** C5, the claim as stated fails: for the docstring ["@"] (empty
    description, no tag) the node's blocks are its header, the deprecation
    slot, a description paragraph with empty text, the image and the
    sources paragraph; the description paragraph block is emitted. *)
Lemma empty_description_paragraph_emitted :
  node_entry (sample_host (Some "@") [sample_category]) sample_category
             empty_world sample_item = Ok world_at_only
  /\ nodes world_at_only
     = [Header 1 (Text "Math"); Optional 0; Paragraph (Text "");
        image_block sample_item sample_category;
        sources_paragraph (sample_class (Some "@"))]
  /\ Paragraph (Text "") ∈ nodes world_at_only.
Proof.
  split; [vm_compute; reflexivity|]. split; [vm_compute; reflexivity|].
  do 2 apply list_elem_of_further. apply list_elem_of_here.
Qed.

(** C7, the code at the failing inputs: the loops run over all of
    [doc_parts], the leading text included.  For
    ["see the manual@input a: first"] the leading text is the description
    and, once more, an item of a "See also" section; for
    ["input handler node."], a docstring without any [@], the leading text
    is taken for a malformed [input] tag and the call ends with
    [ValueError]. *)
Theorem leading_text_scanned_as_tag :
  generate_node_documentation
    (sample_host (Some doc_leading_see) [sample_category])
    sample_item sample_category empty_world = Ok world_leading_see
  /\ nodes world_leading_see
     = [Optional 0; Paragraph (Text "see the manual");
        Paragraph (Bold (Text "See also:")); UnorderedList 0;
        image_block sample_item sample_category;
        Paragraph (Bold (Text "Inputs:")); UnorderedList 1;
        sources_paragraph (sample_class (Some doc_leading_see))]
  /\ items_at world_leading_see 0 = [Span (Italic (Text "the manual"))]
  /\ generate_node_documentation
       (sample_host (Some "input handler node.") [sample_category])
       sample_item sample_category empty_world = Raise ValueError.
Proof. repeat split; vm_compute; reflexivity. Qed.

(** ** The deprecation notice *)

Lemma links_loop (l : list string) : forall acc,
  fold_left (fun links alternative =>
               if String.eqb alternative "" then links
               else links ++ [str (make_node_link alternative)]) l acc
  = acc ++ ((fun a => str (make_node_link a)) <$> filter (fun a => a <> "") l).
Proof.
  induction l as [|a t IH]; intros acc; simpl; [by rewrite app_nil_r|].
  rewrite IH, filter_cons. destruct (String.eqb_spec a "") as [->|Hne].
  - by rewrite decide_False by (intros Hn; by apply Hn).
  - rewrite decide_True by done. by rewrite <- (assoc_L (++)).
Qed.

Lemma string_app_assoc (a b c : string) : (a +:+ b) +:+ c = a +:+ b +:+ c.
Proof.
  induction a as [|x a IH]; [done|].
  change (String x ((a +:+ b) +:+ c) = String x (a +:+ b +:+ c)). by rewrite IH.
Qed.

Lemma prefix_app (p s : string) : String.prefix p (p +:+ s) = true.
Proof.
  induction p as [|x p IH]; [by destruct s|].
  change (String.prefix (String x p) (String x (p +:+ s)) = true).
  cbn [String.prefix]. by destruct (ascii_dec x x).
Qed.

Lemma contains_app (p a b : string) : contains p (a +:+ p +:+ b) = true.
Proof.
  induction a as [|x a IH].
  - change (contains p (p +:+ b) = true).
    destruct (p +:+ b) eqn:E; cbn [contains]; rewrite <- E, prefix_app; done.
  - change (contains p (String x (a +:+ p +:+ b)) = true).
    cbn [contains]. rewrite IH. apply orb_true_r.
Qed.

Lemma contains_intro (m : string) :
  contains PLEASE_USE (DEPRECATED_INTRO +:+ m) = contains PLEASE_USE m.
Proof. reflexivity. Qed.

(** C9: for a payload [alts:message] (the cut is at the first colon, so
    [alts] has none) the notice is the quote of the fixed introduction
    followed by the message alone when no non-empty alternative remains
    between the commas of [alts], and otherwise by the sentence
    "Please use the following node(s) instead: " with the links to the
    remaining alternatives in their order, joined by commas and closed by a
    full stop, then a space and the message.  So the sentence is in the
    notice when an alternative remains, and when none remains the notice
    has it only if the message itself does.  An empty [alts] leaves no
    alternative. *)
Theorem deprecation_notice_alternatives alts message :
  has_colon alts = false ->
  exists text,
    deprecation_quote (alts +:+ ":" +:+ message) = Ok (Quote (Text text))
    /\ text
       = DEPRECATED_INTRO +:+
         match kept_alternatives alts with
         | [] => notice_message message
         | _ :: _ =>
             (PLEASE_USE
              +:+ Py.join ", " ((fun a => str (make_node_link a)) <$> kept_alternatives alts)
              +:+ ".") +:+ " " +:+ notice_message message
         end
    /\ (kept_alternatives alts <> [] -> contains PLEASE_USE text = true)
    /\ (kept_alternatives alts = [] ->
        contains PLEASE_USE text = contains PLEASE_USE (notice_message message))
    /\ (alts = "" -> kept_alternatives alts = []).
Proof.
  intros Hc. eexists. split; [|split; [reflexivity|split; [|split]]].
  - unfold deprecation_quote. rewrite (split1_app _ _ Hc).
    cbn [unpack2 mbind result_bind]. rewrite links_loop. cbn [app].
    fold (kept_alternatives alts). fold (notice_message message).
    unfold DEPRECATED_INTRO, PLEASE_USE.
    destruct (kept_alternatives alts) as [|a t]; [done|].
    cbn [fmap list_fmap length Nat.ltb Nat.leb]. reflexivity.
  - intros Hk. destruct (kept_alternatives alts) as [|a t]; [done|].
    rewrite !string_app_assoc. apply contains_app.
  - intros ->. apply contains_intro.
  - by intros ->.
Qed.

Lemma deprecation_notice_alternatives_witness :
  deprecation_quote "A,,B: use it"
  = Ok (Quote (Text "**DEPRECATED.** This node is deprecated and will be removed in future versions of Armory. Please use the following node(s) instead: [`A`](#a), [`B`](#b). use it.")).
Proof.
  destruct (deprecation_notice_alternatives "A,,B" " use it" eq_refl)
    as (text & Hq & -> & _).
  etrans; [exact Hq|]. vm_compute. reflexivity.
Defined.

Example deprecation_without_alternatives :
  deprecation_quote ":gone"
  = Ok (Quote (Text "**DEPRECATED.** This node is deprecated and will be removed in future versions of Armory. gone.")).
Proof. reflexivity. Qed.

(** ** The sources paragraph *)

Lemma slice_from_split n : forall s,
  exists pre, s = pre +:+ Py.slice_from n s
              /\ String.length pre = Nat.min n (String.length s).
Proof.
  induction n as [|n IH]; intros s.
  - by exists "".
  - destruct s as [|c t]; [by exists ""|].
    destruct (IH t) as (pre & Ht & Hl). exists (String c pre).
    split; [|by simpl; rewrite Hl].
    change (Py.slice_from (S n) (String c t)) with (Py.slice_from n t).
    change (String c pre +:+ Py.slice_from n t) with (String c (pre +:+ Py.slice_from n t)).
    by rewrite <- Ht.
Qed.

(** C10: the last block of the subtree of a documented node is the
    "Sources:" paragraph; its text is the bold "Sources:", the link
    "Python" to [PY_NODE_DIR] followed by the components of the module path
    from the third on, joined by "/", and ".py", and the link "Haxe" to
    [HX_NODE_DIR] followed by [bl_idname] without its first two characters,
    whatever they are, and ".hx". *)
Theorem sources_paragraph_is_last h nodeitem category w doc :
  __doc__ (get_nodetype h (nodetype nodeitem)) = Some doc ->
  let cls := get_nodetype h (nodetype nodeitem) in
  let node_file_py := Py.join "/" (drop 2 (Py.split "." (__module__ cls))) +:+ ".py" in
  let node_file_hx := Py.slice_from 2 (bl_idname cls) +:+ ".hx" in
  (existsb malformed (Py.split "@" doc) = false ->
   exists w', generate_node_documentation h nodeitem category w = Ok w')
  /\ forall w', generate_node_documentation h nodeitem category w = Ok w' ->
  last (nodes w')
  = Some (Paragraph (Text
      ("**Sources:**" +:+ " " +:+ ("[" +:+ "Python" +:+ "](" +:+ (PY_NODE_DIR +:+ node_file_py) +:+ ")")
       +:+ " | " +:+ ("[" +:+ "Haxe" +:+ "](" +:+ (HX_NODE_DIR +:+ node_file_hx) +:+ ")"))))
  /\ last (added w w') = last (nodes w')
  /\ exists pre,
       bl_idname cls = pre +:+ Py.slice_from 2 (bl_idname cls)
       /\ String.length pre = Nat.min 2 (String.length (bl_idname cls)).
Proof.
  intros Hdoc cls node_file_py node_file_hx.
  split; [by apply generate_node_documentation_returns|]. intros w' Hg.
  destruct (generate_node_documentation_ok _ _ _ _ _ _ Hdoc Hg) as [_ ->].
  split; [|split].
  - unfold documented, node_body. cbn [nodes].
    rewrite !(assoc_L (++)). by rewrite last_snoc.
  - erewrite added_app; [|done]. unfold documented, node_body. cbn [nodes].
    rewrite !(assoc_L (++)). by rewrite !last_snoc.
  - apply slice_from_split.
Qed.

Lemma sources_paragraph_is_last_witness :
  last (nodes world_two_inputs)
  = Some (Paragraph (Text "**Sources:** [Python](https://github.com/armory3d/armory/blob/master/blender/arm/logicnode/math/LN_math.py) | [Haxe](https://github.com/armory3d/armory/blob/master/Sources/armory/logicnode/MathNode.hx)")).
Proof.
  assert (generate_node_documentation
            (sample_host (Some doc_two_inputs) [sample_category])
            sample_item sample_category empty_world = Ok world_two_inputs) as Hg
    by (vm_compute; reflexivity).
  rewrite (proj1 (proj2 (sources_paragraph_is_last
                    (sample_host (Some doc_two_inputs) [sample_category])
                    sample_item sample_category empty_world
                    doc_two_inputs eq_refl) world_two_inputs Hg)).
  vm_compute. reflexivity.
Defined.

(** ** The listing of the categories and the category pass *)

Definition category_link (c : ArmNodeCategory) : Node :=
  Span (Link (Text (name c)) (get_anchor (name c))).

(** What a round of the listing loop appends to the listing and to the
    heap; [a] is the address of the new list of links. *)
Definition listing_items (section : string) (cats : list ArmNodeCategory) (a : addr)
    : list Node :=
  if 0 <? length cats
  then [Span (Bold (Text (Py.capitalize section))); UnorderedList a] else [].
Definition listing_lists (cats : list ArmNodeCategory) : list (list Node) :=
  if 0 <? length cats then [map category_link cats] else [].

Lemma alter_at_length {A} (f : A -> A) (H : list A) (x : A) (T : list A) :
  alter f (length H) (H ++ x :: T) = H ++ f x :: T.
Proof. by rewrite <- (Nat.add_0_r (length H)), alter_app_r. Qed.

Lemma listing_step_spec H cur T N O lv section cats :
  listing_step (length H) (mkWorld N (H ++ [cur] ++ T) O lv) (section, cats)
  = mkWorld N (H ++ [cur ++ listing_items section cats (length H + 1 + length T)]
                 ++ T ++ listing_lists cats) O lv.
Proof.
  unfold listing_step, listing_items, listing_lists.
  destruct (0 <? length cats); [|by rewrite !app_nil_r].
  unfold list_append, list_of. cbn [nodes py_lists optionals header_level app].
  rewrite alter_at_length, !length_app. cbn [length].
  rewrite <- (assoc_L (++) H). cbn [app].
  rewrite alter_at_length, <- (assoc_L (++) cur). cbn [app].
  by replace (length H + S (length T)) with (length H + 1 + length T) by lia.
Qed.

Lemma listing_spec entries : forall H cur T N O lv,
  exists X Y,
    fold_left (listing_step (length H)) entries (mkWorld N (H ++ [cur] ++ T) O lv)
    = mkWorld N (H ++ [cur ++ X] ++ T ++ Y) O lv
    /\ forall section cats c,
         (section, cats) ∈ entries -> c ∈ cats ->
         exists a : nat, (UnorderedList a ∈ X)
                   /\ (H ++ [cur ++ X] ++ T ++ Y) !! a = Some (map category_link cats).
Proof.
  induction entries as [|[section cats] rest IH]; intros H cur T N O lv.
  - exists [], []. rewrite !app_nil_r. split; [done|].
    intros ? ? ? Hin. by apply elem_of_nil in Hin.
  - cbn [fold_left]. rewrite listing_step_spec.
    set (a := length H + 1 + length T).
    destruct (IH H (cur ++ listing_items section cats a) (T ++ listing_lists cats) N O lv)
      as (X & Y & -> & HX).
    exists (listing_items section cats a ++ X), (listing_lists cats ++ Y).
    rewrite <- !(assoc_L (++) _ _ X), <- !(assoc_L (++) _ _ Y) in *.
    split; [done|].
    intros section' cats' c [[= -> ->]|Hin]%elem_of_cons Hc.
    + exists a. unfold listing_items, listing_lists.
      assert ((0 <? length cats) = true) as ->.
      { apply Nat.ltb_lt. destruct cats; [by apply elem_of_nil in Hc|simpl; lia]. }
      split; [right; by left|].
      assert (length H <= a) as Hle by (unfold a; lia).
      assert (a - length H = S (length T)) as Hsub by (unfold a; lia).
      rewrite lookup_app_r, Hsub by done.
      change ((T ++ [map category_link cats] ++ Y) !! length T
              = Some (map category_link cats)).
      rewrite lookup_app_r by done. by rewrite Nat.sub_diag.
    + destruct (HX _ _ _ Hin Hc) as (a' & Ha & Hl).
      exists a'. split; [|done]. apply elem_of_app. by right.
Qed.

Lemma categories_loop_ok h cs : forall w w',
  for_each (category_entry h) cs w = Ok w' ->
  extends w w'
  /\ forall c, c ∈ cs -> Header (header_level w) (Text (name c)) ∈ nodes w'.
Proof.
  induction cs as [|c0 rest IH]; intros w w'; cbn [for_each].
  - intros [= <-]. split; [apply extends_refl|].
    intros ? Hin. by apply elem_of_nil in Hin.
  - destruct (category_entry h w c0) as [w1|] eqn:E1; [|done].
    cbn [mbind result_bind]. intros E2.
    destruct (category_entry_ok _ _ _ _ E1) as (N & Hn & _ & Hx).
    destruct (IH _ _ E2) as [Hx' Hh].
    split; [by eapply extends_trans|].
    intros c [->|Hin]%elem_of_cons.
    + destruct Hx' as ([N' ->] & _). rewrite Hn.
      apply elem_of_app. left. apply elem_of_app. right. by left.
    + destruct Hx as (_ & _ & _ & <-). by apply Hh.
Qed.

Lemma run_unfold h :
  run h
  = (w ← for_each (category_entry h) (get_all_categories h)
           (Document_add (UnorderedList 0)
              (fold_left (listing_step 0) (category_items h) (preamble h)));
     Ok (leave_sublevel w)).
Proof. reflexivity. Qed.

Lemma run_ok h w' :
  run h = Ok w' ->
  exists X Y w2,
    for_each (category_entry h) (get_all_categories h)
      (mkWorld (nodes (preamble h) ++ [UnorderedList 0]) (X :: Y) [] 2) = Ok w2
    /\ w' = leave_sublevel w2
    /\ forall section cats c,
         (section, cats) ∈ category_items h -> c ∈ cats ->
         exists a : nat, (UnorderedList a ∈ X)
                         /\ (X :: Y) !! a = Some (map category_link cats).
Proof.
  rewrite run_unfold.
  destruct (listing_spec (category_items h) [] [] [] (nodes (preamble h)) [] 2)
    as (X & Y & E & HX).
  cbn [app length] in E, HX.
  change (mkWorld (nodes (preamble h)) [[]] [] 2) with (preamble h) in E.
  rewrite E. unfold Document_add. cbn [nodes py_lists optionals header_level].
  destruct (for_each _ _ _) as [w2|] eqn:E2; [|done].
  cbn [mbind result_bind]. intros [= <-]. by exists X, Y, w2.
Qed.

(** C6 (as amended): a category with zero nodes is not omitted.  In the
    main pass it adds its header and, when its description is not empty,
    its description paragraph, and no node subtree; in a run that returns,
    the header of every category of the registry is in the document, and
    every category of a section of [category_items] is linked in a list of
    the "Node Categories" listing.  Only a section without categories adds
    nothing to the listing. *)
Theorem empty_category_is_rendered h category :
  get_all_nodes category = [] ->
  deprecated_nodes category = [] ->
  (forall w,
     category_entry h w category
     = Ok (mkWorld (nodes w ++ category_head (header_level w) category)
                   (py_lists w) (optionals w) (header_level w)))
  /\ (forall w', run h = Ok w' -> category ∈ get_all_categories h ->
        Header 2 (Text (name category)) ∈ nodes w')
  /\ (forall w' section cats,
        run h = Ok w' -> (section, cats) ∈ category_items h -> category ∈ cats ->
        UnorderedList 0 ∈ nodes w'
        /\ exists a : nat, UnorderedList a ∈ items_at w' 0
                           /\ category_link category ∈ items_at w' a)
  /\ (forall w section, listing_step 0 w (section, []) = w).
Proof.
  intros Hn Hd. split; [|split; [|split]].
  - intros w. unfold category_entry, category_head. rewrite Hn, Hd.
    destruct (String.eqb (description category) ""); destruct w as [N L O lv];
      cbn; unfold leave_sublevel, enter_sublevel, Document_add; cbn;
      rewrite <- ?(assoc_L (++)); done.
  - intros w' (X & Y & w2 & E2 & -> & _)%run_ok Hin.
    destruct (categories_loop_ok _ _ _ _ E2) as [_ Hh].
    by apply Hh.
  - intros w' section cats (X & Y & w2 & E2 & -> & HX)%run_ok Hs Hc.
    destruct (categories_loop_ok _ _ _ _ E2) as [([N HN] & [L HL] & _) _].
    cbn [nodes py_lists] in HN, HL.
    destruct (HX _ _ _ Hs Hc) as (a & Ha & Hl).
    split.
    + cbn [leave_sublevel nodes]. rewrite HN.
      apply elem_of_app. left. apply elem_of_app. right. by left.
    + exists a. unfold items_at. cbn [leave_sublevel py_lists]. rewrite HL.
      rewrite !lookup_app_l by (by eapply lookup_lt_Some || (simpl; lia)).
      cbn [lookup list_lookup]. rewrite Hl. cbn [default from_option].
      split; [done|].
      by apply list_elem_of_In, in_map, list_elem_of_In.
  - done.
Qed.

Lemma empty_category_is_rendered_witness :
  Header 2 (Text "Empty") ∈ nodes world_empty_category
  /\ exists a : nat, UnorderedList a ∈ items_at world_empty_category 0
                     /\ category_link empty_category ∈ items_at world_empty_category a.
Proof.
  assert (run (sample_host (Some "Doc.") [empty_category]) = Ok world_empty_category)
    as Hrun by (vm_compute; reflexivity).
  destruct (empty_category_is_rendered (sample_host (Some "Doc.") [empty_category])
              empty_category eq_refl eq_refl) as (_ & Hh & Hl & _).
  split.
  - apply (Hh _ Hrun). apply list_elem_of_here.
  - apply (Hl _ "logic" [empty_category] Hrun); apply list_elem_of_here.
Defined.

(** C6, the claim as stated fails: a registry whose only category has no
    node yields a document with the header of that category and with a link
    to it in the "Node Categories" listing. *)
Lemma empty_category_not_omitted :
  run (sample_host (Some "Doc.") [empty_category]) = Ok world_empty_category
  /\ drop 4 (nodes world_empty_category)
     = [Header 2 (Text "Node Categories"); UnorderedList 0; Header 2 (Text "Empty")]
  /\ items_at world_empty_category 0 = [Span (Bold (Text "Logic")); UnorderedList 1]
  /\ items_at world_empty_category 1 = [Span (Link (Text "Empty") "#empty")].
Proof. repeat split; vm_compute; reflexivity. Qed.

(** * Further properties of the script *)

(** ** Anchors *)

(** [c in s] for a character. *)
Definition has_char (c : ascii) (s : string) : bool :=
  existsb (Py.eqc c) (String.list_ascii_of_string s).

Lemma string_app_cons x a b : String x a +:+ b = String x (a +:+ b).
Proof. reflexivity. Qed.

Lemma string_app_nil b : "" +:+ b = b.
Proof. reflexivity. Qed.

Lemma has_char_app c a b : has_char c (a +:+ b) = has_char c a || has_char c b.
Proof.
  unfold has_char. induction a as [|x a IH]; [done|].
  rewrite string_app_cons. simpl. by rewrite IH, orb_assoc.
Qed.

Lemma lower_char_space c : Py.eqc c " " = Py.eqc (Py.lower_char c) " ".
Proof. by destruct c as [[] [] [] [] [] [] [] []]. Qed.

Lemma lower_char_idem c : Py.lower_char (Py.lower_char c) = Py.lower_char c.
Proof. by destruct c as [[] [] [] [] [] [] [] []]. Qed.

Lemma lower_idem s : Py.lower (Py.lower s) = Py.lower s.
Proof. induction s as [|c t IH]; [done|]. simpl. by rewrite lower_char_idem, IH. Qed.




Lemma hyphenate_idem s :
  Py.replace " " "-" (Py.replace " " "-" s) = Py.replace " " "-" s.
Proof.
  induction s as [|c t IH]; [done|]. simpl.
  destruct (Py.eqc c " ") eqn:E; rewrite !string_app_cons, !string_app_nil;
    simpl; rewrite ?E, !string_app_cons, !string_app_nil, IH; done.
Qed.

Lemma hyphenate_lower s :
  Py.replace " " "-" (Py.lower (Py.replace " " "-" s))
  = Py.replace " " "-" (Py.lower s).
Proof.
  induction s as [|c t IH]; [done|]. simpl. rewrite <- lower_char_space.
  destruct (Py.eqc c " ") eqn:E; rewrite !string_app_cons, !string_app_nil;
    simpl; rewrite <- ?lower_char_space, ?E, !string_app_cons, !string_app_nil, IH;
    done.
Qed.


(** X2: anchors do not tell upper case from lower case, nor a space from a
    hyphen: the lowered text and the text with its spaces replaced by
    hyphens have the anchor of the text. *)
Theorem get_anchor_collisions text :
  get_anchor (Py.lower text) = get_anchor text
  /\ get_anchor (Py.replace " " "-" text) = get_anchor text
  /\ get_anchor (Py.replace " " "-" (Py.lower text)) = get_anchor text.
Proof.
  unfold get_anchor. split; [|split].
  - by rewrite lower_idem.
  - by rewrite hyphenate_lower.
  - by rewrite hyphenate_lower, lower_idem.
Qed.

Example anchor_math_float :
  get_anchor "Math Float" = "#math-float"
  /\ get_anchor "math-float" = get_anchor "Math Float".
Proof. split; reflexivity. Qed.

(** ** Whitespace *)

(** A word: not empty and free of whitespace. *)
Definition word (w : string) : Prop :=
  w <> "" /\ forallb (fun c => negb (Py.isspace c)) (String.list_ascii_of_string w) = true.

Definition no_space_chars (w : string) : bool :=
  forallb (fun c => negb (Py.isspace c)) (String.list_ascii_of_string w).

Lemma no_space_chars_app a b :
  no_space_chars (a +:+ b) = no_space_chars a && no_space_chars b.
Proof.
  unfold no_space_chars. induction a as [|x a IH]; [done|].
  rewrite string_app_cons. simpl. by rewrite IH, andb_assoc.
Qed.

Lemma word_snoc w c : word w -> Py.isspace c = false -> word (w +:+ String c "").
Proof.
  intros [Hne Hw] Hc. split; [by destruct w|].
  fold (no_space_chars (w +:+ String c "")). rewrite no_space_chars_app.
  unfold no_space_chars at 1. rewrite Hw. unfold no_space_chars. simpl. by rewrite Hc.
Qed.

Lemma word_single c : Py.isspace c = false -> word (String c "").
Proof. intros Hc. split; [done|]. simpl. by rewrite Hc. Qed.

Lemma split_ws_go_words s : forall cur,
  (forall w, cur = Some w -> word w) -> Forall word (Py.split_ws_go cur s).
Proof.
  induction s as [|c t IH]; intros cur Hcur; simpl.
  - destruct cur as [w|]; [|constructor]. constructor; [by apply Hcur|constructor].
  - destruct (Py.isspace c) eqn:Hc.
    + apply Forall_app. split; [|by apply IH].
      destruct cur as [w|]; [|constructor]. constructor; [by apply Hcur|constructor].
    + apply IH. intros w [= <-]. destruct cur as [w'|]; simpl.
      * by apply word_snoc; [apply Hcur|].
      * by apply word_single.
Qed.

Lemma split_ws_words s : Forall word (Py.split_ws s).
Proof. by apply split_ws_go_words. Qed.

(** Reading a run of non-whitespace characters extends the open word. *)
Lemma split_ws_go_run w : forall cur s,
  no_space_chars w = true -> w <> "" ->
  Py.split_ws_go cur (w +:+ s)
  = Py.split_ws_go (Some (from_option (fun x => x +:+ w) w cur)) s.
Proof.
  induction w as [|c w IH]; intros cur s Hw Hne; [done|].
  rewrite string_app_cons. unfold no_space_chars in Hw. simpl in Hw.
  apply andb_true_iff in Hw as [Hc Hw]. apply negb_true_iff in Hc.
  simpl. rewrite Hc. destruct w as [|c' w'].
  - rewrite string_app_nil. by destruct cur.
  - rewrite (IH _ s Hw) by done. f_equal. f_equal.
    destruct cur as [x|]; simpl; [|done].
    by rewrite string_app_assoc.
Qed.

Lemma split_ws_go_blank b : forall cur,
  blank b = true -> Py.split_ws_go cur b = list.option_list cur.
Proof.
  unfold blank. induction b as [|c t IH]; intros cur; simpl; [done|].
  intros [Hc Ht]%andb_true_iff. rewrite Hc, (IH None Ht). simpl. by rewrite app_nil_r.
Qed.

Lemma split_ws_go_app_blank s b : forall cur,
  blank b = true -> Py.split_ws_go cur (s +:+ b) = Py.split_ws_go cur s.
Proof.
  induction s as [|c t IH]; intros cur Hb.
  - rewrite string_app_nil. simpl. by apply split_ws_go_blank.
  - rewrite string_app_cons. simpl. by rewrite !IH.
Qed.

Lemma string_app_nil_r s : s +:+ "" = s.
Proof. induction s as [|c t IH]; [done|]. by rewrite string_app_cons, IH. Qed.

Lemma join_cons2 sep a b l :
  Py.join sep (a :: b :: l) = a +:+ sep +:+ Py.join sep (b :: l).
Proof. reflexivity. Qed.

(** Splitting the words joined by single spaces gives the words back. *)
Lemma split_ws_join ws : Forall word ws -> Py.split_ws (Py.join " " ws) = ws.
Proof.
  unfold Py.split_ws.
  induction 1 as [|w [|w2 rest] [Hne Hw] Hrest IH]; [done| |].
  - change (Py.join " " [w]) with w. rewrite <- (string_app_nil_r w) at 1.
    by rewrite (split_ws_go_run w None "" Hw Hne).
  - rewrite join_cons2, (split_ws_go_run w None _ Hw Hne).
    rewrite string_app_cons, string_app_nil. cbn [Py.split_ws_go from_option].
    change (Py.isspace " ") with true. cbn iota. by rewrite IH.
Qed.

Lemma word_no_newline w : no_space_chars w = true -> Py.replace "010" "" w = w.
Proof.
  unfold no_space_chars. induction w as [|c t IH]; [done|]. simpl.
  intros [Hc Ht]%andb_true_iff. rewrite (IH Ht).
  destruct (Py.eqc c "010") eqn:E; [|done].
  apply Ascii.eqb_eq in E. subst c. done.
Qed.

Lemma join_words_no_newline ws :
  Forall word ws -> Py.replace "010" "" (Py.join " " ws) = Py.join " " ws.
Proof.
  intros Hws. assert (forall a b, Py.replace "010" "" (a +:+ b)
                                  = Py.replace "010" "" a +:+ Py.replace "010" "" b) as Happ.
  { intros a b. induction a as [|c a IH]; [done|].
    rewrite string_app_cons. simpl. by rewrite IH, string_app_assoc. }
  induction Hws as [|w [|w2 rest] [Hne Hw] Hrest IH]; [done| |].
  - by apply word_no_newline.
  - rewrite join_cons2, !Happ, IH, (word_no_newline w Hw). done.
Qed.

Lemma rstrip_by_all strip b :
  forallb strip (String.list_ascii_of_string b) = true -> Py.rstrip_by strip b = "".
Proof.
  induction b as [|c t IH]; [done|]. simpl.
  intros [Hc Ht]%andb_true_iff. by rewrite (IH Ht), Hc.
Qed.

Lemma rstrip_by_app strip s b :
  forallb strip (String.list_ascii_of_string b) = true ->
  Py.rstrip_by strip (s +:+ b) = Py.rstrip_by strip s.
Proof.
  intros Hb. induction s as [|c t IH].
  - rewrite string_app_nil. by apply rstrip_by_all.
  - rewrite string_app_cons. simpl. by rewrite IH.
Qed.

Lemma rstrip_by_split strip s :
  exists r, s = Py.rstrip_by strip s +:+ r
            /\ forallb strip (String.list_ascii_of_string r) = true.
Proof.
  induction s as [|c t (r & Ht & Hr)]; [by exists ""|]. simpl.
  destruct (Py.rstrip_by strip t) as [|c' t'] eqn:E.
  - destruct (strip c) eqn:Hc.
    + exists (String c t). split; [done|]. rewrite Ht, string_app_nil. simpl.
      by rewrite Hc, Hr.
    + exists r. split; [|done]. by rewrite Ht at 1.
  - exists r. split; [|done]. by rewrite Ht at 1.
Qed.

Lemma newlines_blank r :
  forallb (Py.eqc "010") (String.list_ascii_of_string r) = true -> blank r = true.
Proof.
  unfold blank. induction r as [|c t IH]; [done|]. simpl.
  intros [Hc Ht]%andb_true_iff. rewrite (IH Ht), andb_true_r.
  apply Ascii.eqb_eq in Hc. by subst c.
Qed.

Lemma split_ws_rstrip_nl s : Py.split_ws (Py.rstrip_nl s) = Py.split_ws s.
Proof.
  unfold Py.rstrip_nl. destruct (rstrip_by_split (Py.eqc "010") s) as (r & Hs & Hr).
  rewrite Hs at 2. unfold Py.split_ws.
  by rewrite split_ws_go_app_blank by by apply newlines_blank.
Qed.

Lemma split_ws_go_some_nonempty s : forall w, Py.split_ws_go (Some w) s <> [].
Proof.
  induction s as [|c t IH]; intros w; simpl; [done|].
  destruct (Py.isspace c); [done|]. apply IH.
Qed.

Lemma split_ws_nil_blank s : Py.split_ws s = [] -> blank s = true.
Proof.
  unfold Py.split_ws, blank. induction s as [|c t IH]; [done|]. simpl.
  destruct (Py.isspace c); simpl; [done|].
  intros E. by apply split_ws_go_some_nonempty in E.
Qed.

Lemma join_words_nil ws : Forall word ws -> Py.join " " ws = "" -> ws = [].
Proof.
  intros Hws. destruct Hws as [|w rest [Hne _] Hrest]; [done|].
  destruct w as [|c w]; [done|]. by destruct rest.
Qed.

(** X3: collapsing a text, as the script does for descriptions and
    messages, gives the words of the text joined by single spaces, a word
    being a non-empty run without whitespace; the [replace] of newlines
    changes nothing; collapsing keeps the words and collapsing twice is
    collapsing once. *)
Theorem collapse_normal_form s :
  collapse s = Py.join " " (Py.split_ws s)
  /\ Forall word (Py.split_ws s)
  /\ Py.split_ws (collapse s) = Py.split_ws s
  /\ collapse (collapse s) = collapse s.
Proof.
  pose proof (split_ws_words s) as Hw.
  assert (collapse s = Py.join " " (Py.split_ws s)) as E.
  { unfold collapse. by apply join_words_no_newline. }
  assert (Py.split_ws (collapse s) = Py.split_ws s) as E2.
  { rewrite E. by apply split_ws_join. }
  split; [done|]. split; [done|]. split; [done|].
  unfold collapse at 1. rewrite E2. by fold (collapse s).
Qed.

(** X4: the description of a docstring is made of the words of the text
    before the first [@], joined by single spaces: neither the stripping of
    trailing newlines nor the layout of the text matters, and the
    description is empty exactly when that text is blank. *)
Theorem description_of_words doc :
  let leading := default "" (head (Py.split "@" doc)) in
  description_of doc = Py.join " " (Py.split_ws leading)
  /\ (forall doc', Py.split_ws (default "" (head (Py.split "@" doc'))) = Py.split_ws leading ->
                   description_of doc' = description_of doc)
  /\ (description_of doc = "" <-> blank leading = true).
Proof.
  intros leading.
  assert (forall d, description_of d
                    = Py.join " " (Py.split_ws (default "" (head (Py.split "@" d))))) as E.
  { intros d. unfold description_of.
    destruct (collapse_normal_form (Py.rstrip_nl (default "" (head (Py.split "@" d)))))
      as (-> & _). by rewrite split_ws_rstrip_nl. }
  split; [apply E|]. split.
  - intros doc' Hw. by rewrite !E, Hw.
  - rewrite E. fold leading. split.
    + intros Hj. apply split_ws_nil_blank.
      by apply join_words_nil; [apply split_ws_words|].
    + intros Hb. by rewrite (split_ws_blank _ Hb).
Qed.

(** ** Tags and their items *)

Lemma slice_from_app p r : Py.slice_from (String.length p) (p +:+ r) = r.
Proof. induction p as [|c p IH]; [done|]. exact IH. Qed.

Lemma startswith_app p r : Py.startswith p (p +:+ r) = true.
Proof. apply prefix_app. Qed.

Lemma startswith_inv p : forall s,
  Py.startswith p s = true -> s = p +:+ Py.slice_from (String.length p) s.
Proof.
  unfold Py.startswith. induction p as [|c p IH]; intros s; [done|].
  destruct s as [|c' s]; [done|]. cbn [String.prefix].
  destruct (ascii_dec c c') as [->|]; [|done].
  intros Hp. rewrite string_app_cons. f_equal. exact (IH _ Hp).
Qed.

(** X5: the item of a [see] or [seeNode] fragment does not depend on the
    whitespace that ends the fragment (the line break and the indentation
    before the next [@]): the text is stripped on the right before it is
    shown or linked. *)
Theorem see_item_ignores_trailing_whitespace text b :
  blank b = true ->
  see_item ("see " +:+ text +:+ b) = Some (Span (Italic (Text (Py.rstrip text))))
  /\ see_item ("seeNode " +:+ text +:+ b)
     = Some (Span (Italic (make_node_link (Py.rstrip text)))).
Proof.
  intros Hb. unfold see_item.
  change (Py.startswith "seeNode " ("see " +:+ text +:+ b)) with false.
  rewrite !startswith_app.
  change (Py.slice_from 4 ("see " +:+ text +:+ b)) with (text +:+ b).
  change (Py.slice_from 8 ("seeNode " +:+ text +:+ b)) with (text +:+ b).
  unfold Py.rstrip. by rewrite !rstrip_by_app.
Qed.

Lemma see_item_ignores_trailing_whitespace_witness :
  see_item ("see the manual" +:+ String "010" "    ")
  = Some (Span (Italic (Text "the manual"))).
Proof.
  etrans; [exact (proj1 (see_item_ignores_trailing_whitespace
                           "the manual" (String "010" "    ") eq_refl))|].
  reflexivity.
Defined.

(** The prefix that makes a fragment a tag of a kind. *)
Definition kind_prefix (k : Kind) : string :=
  match k with
  | KInput => "input "
  | KOutput => "output "
  | KOption => "option "
  end.

(** X6: a tag [input name:description] (and likewise [output], [option])
    is cut at its first colon only: when [name] has no colon the item is
    the name as inline code, a colon and a space, and the collapsed
    description, whatever colons the description has. *)
Theorem socket_item_cut_at_first_colon k name description :
  has_colon name = false ->
  socket_tag (kind_prefix k +:+ name +:+ ":" +:+ description)
  = Some (k, name +:+ ":" +:+ description)
  /\ socket_item_of k (kind_prefix k +:+ name +:+ ":" +:+ description)
     = Some (Span (Text (("`" +:+ name +:+ "`") +:+ ": " +:+ collapse description))).
Proof.
  intros Hc.
  assert (socket_tag (kind_prefix k +:+ name +:+ ":" +:+ description)
          = Some (k, name +:+ ":" +:+ description)) as Ht.
  { unfold socket_tag. destruct k; cbn [kind_prefix].
    - by rewrite startswith_app, (slice_from_app "input ").
    - change (Py.startswith "input " ("output " +:+ ?x)) with false.
      by rewrite startswith_app, (slice_from_app "output ").
    - change (Py.startswith "input " ("option " +:+ ?x)) with false.
      change (Py.startswith "output " ("option " +:+ ?x)) with false.
      by rewrite startswith_app, (slice_from_app "option "). }
  split; [done|]. unfold socket_item_of. rewrite Ht. cbn beta iota.
  rewrite decide_True by done.
  unfold socket_item. by rewrite (split1_app _ _ Hc).
Qed.

Lemma socket_item_cut_at_first_colon_witness :
  socket_item_of KInput "input Value:Use the following: yes"
  = Some (Span (Text "`Value`: Use the following: yes")).
Proof.
  etrans; [exact (proj2 (socket_item_cut_at_first_colon
                           KInput "Value" "Use the following: yes" eq_refl))|].
  reflexivity.
Defined.

(** The prefixes the two loops test, in the order of the tests. *)
Definition tag_prefixes : list string :=
  ["seeNode "; "see "; "input "; "output "; "option "; "deprecated "].

Local Ltac branches :=
  repeat split; intros;
  repeat match goal with
         | H : is_Some None |- _ => destruct H as [? H]; discriminate H
         end;
  done.

(** X7: no fragment passes two of the prefix tests, so the order of the
    tests of the loops does not matter and a fragment is handled by at most
    one branch: a fragment that gives a "See also" item is no socket tag and
    no deprecation, and a socket tag is no deprecation. *)
Theorem tag_prefixes_exclusive part :
  (forall p q, p ∈ tag_prefixes -> q ∈ tag_prefixes -> p <> q ->
               Py.startswith p part = true -> Py.startswith q part = false)
  /\ (is_Some (see_item part) -> socket_tag part = None /\ deprecated_tag part = None)
  /\ (is_Some (socket_tag part) -> see_item part = None /\ deprecated_tag part = None)
  /\ (is_Some (deprecated_tag part) -> see_item part = None /\ socket_tag part = None).
Proof.
  assert (forall p q, p ∈ tag_prefixes -> q ∈ tag_prefixes -> p <> q ->
            Py.startswith p part = true -> Py.startswith q part = false) as Hex.
  { intros p q Hp Hq Hne Hs. apply startswith_inv in Hs.
    unfold tag_prefixes in Hp, Hq.
    repeat (apply elem_of_cons in Hp as [->|Hp]); try (by apply elem_of_nil in Hp);
      repeat (apply elem_of_cons in Hq as [->|Hq]); try (by apply elem_of_nil in Hq);
      try done; rewrite Hs; reflexivity. }
  split; [exact Hex|].
  assert (forall p, p ∈ tag_prefixes -> forall q, q ∈ tag_prefixes -> p <> q ->
            Py.startswith p part = true -> Py.startswith q part = false) as Hex'
    by (intros; eauto).
  assert ("seeNode " ∈ tag_prefixes) as H1 by (repeat first [apply list_elem_of_here|apply list_elem_of_further]).
  assert ("see " ∈ tag_prefixes) as H2 by (repeat first [apply list_elem_of_here|apply list_elem_of_further]).
  assert ("input " ∈ tag_prefixes) as H3 by (repeat first [apply list_elem_of_here|apply list_elem_of_further]).
  assert ("output " ∈ tag_prefixes) as H4 by (repeat first [apply list_elem_of_here|apply list_elem_of_further]).
  assert ("option " ∈ tag_prefixes) as H5 by (repeat first [apply list_elem_of_here|apply list_elem_of_further]).
  assert ("deprecated " ∈ tag_prefixes) as H6 by (repeat first [apply list_elem_of_here|apply list_elem_of_further]).
  unfold see_item, deprecated_tag, socket_tag.
  destruct (Py.startswith "seeNode " part) eqn:E1.
  { rewrite (Hex' _ H1 "input "), (Hex' _ H1 "output "), (Hex' _ H1 "option "),
      (Hex' _ H1 "deprecated ") by done.
    branches. }
  destruct (Py.startswith "see " part) eqn:E2.
  { rewrite (Hex' _ H2 "input "), (Hex' _ H2 "output "), (Hex' _ H2 "option "),
      (Hex' _ H2 "deprecated ") by done.
    branches. }
  destruct (Py.startswith "input " part); [branches|].
  destruct (Py.startswith "output " part); [branches|].
  destruct (Py.startswith "option " part); [branches|].
  destruct (Py.startswith "deprecated " part); branches.
Qed.

(** ** The message of a deprecation notice *)

Lemma string_length_app a b :
  String.length (a +:+ b) = String.length a + String.length b.
Proof. induction a as [|c a IH]; [done|]. rewrite string_app_cons. simpl. by rewrite IH. Qed.

Lemma endswith_snoc s : Py.endswith "." (s +:+ ".") = true.
Proof.
  unfold Py.endswith. rewrite string_length_app. cbn [String.length].
  replace (String.length s + 1 - 1) with (String.length s) by lia.
  rewrite slice_from_app. apply andb_true_iff. split; [|done].
  apply Nat.leb_le. lia.
Qed.

(** X8: the message of a notice is empty or ends with a full stop: a full
    stop is appended to the collapsed message unless that is empty or ends
    with one already, so no message gets a second full stop. *)
Theorem notice_message_full_stop message :
  (notice_message message = "" <-> collapse message = "")
  /\ (notice_message message <> "" -> Py.endswith "." (notice_message message) = true)
  /\ (Py.endswith "." (collapse message) = true ->
      notice_message message = collapse message)
  /\ (collapse message <> "" -> Py.endswith "." (collapse message) = false ->
      notice_message message = collapse message +:+ ".").
Proof.
  unfold notice_message.
  destruct (Py.endswith "." (collapse message)) eqn:He;
    destruct (String.eqb_spec (collapse message) "") as [Hn|Hn]; cbn [negb andb].
  - rewrite Hn in He. done.
  - repeat split; try done.
  - rewrite Hn. repeat split; try done.
  - repeat split; try done.
    + intros E. by destruct (collapse message).
    + intros _. apply endswith_snoc.
Qed.

Example notice_message_examples :
  notice_message "  Use   the new node  " = "Use the new node."
  /\ notice_message "Gone." = "Gone."
  /\ notice_message "  " = "".
Proof. repeat split; reflexivity. Qed.

(** ** When the generator aborts *)

Lemma existsb_false_forall {A} (f : A -> bool) (l : list A) :
  existsb f l = false <-> forall x, x ∈ l -> f x = false.
Proof.
  induction l as [|y t IH]; simpl.
  - split; [intros _ x Hx; by apply elem_of_nil in Hx|done].
  - rewrite orb_false_iff, IH. split.
    + intros [Hy Ht] x [->|Hx]%elem_of_cons; auto.
    + intros Hall. split; [apply Hall; by left|]. intros x Hx. apply Hall. by right.
Qed.

Lemma existsb_true_exists {A} (f : A -> bool) (l : list A) :
  existsb f l = true <-> exists x, x ∈ l /\ f x = true.
Proof.
  rewrite existsb_exists. split; intros (x & Hx & Hf); exists x;
    (split; [by apply list_elem_of_In|done]).
Qed.

Lemma malformed_iff part :
  malformed part = true
  <-> (exists k payload, socket_tag part = Some (k, payload) /\ has_colon payload = false)
      \/ (exists payload, deprecated_tag part = Some payload /\ has_colon payload = false).
Proof.
  unfold malformed, malformed_socket. rewrite orb_true_iff. split.
  - intros [H|H]; [left|right].
    + destruct (socket_tag part) as [[k payload]|]; [|done].
      exists k, payload. split; [done|]. by apply negb_true_iff.
    + destruct (deprecated_tag part) as [payload|]; [|done].
      exists payload. split; [done|]. by apply negb_true_iff.
  - intros [(k & payload & -> & Hc)|(payload & -> & Hc)]; [left|right];
      by apply negb_true_iff.
Qed.

(** X9: the documentation of a node with a docstring ends with
    [ValueError] exactly when some fragment of the docstring is a malformed
    tag, that is an [input], [output], [option] or [deprecated] tag whose
    payload has no colon; it returns exactly when there is none. *)
Theorem generate_node_documentation_aborts_iff h nodeitem category w doc :
  __doc__ (get_nodetype h (nodetype nodeitem)) = Some doc ->
  (generate_node_documentation h nodeitem category w = Raise ValueError
   <-> exists part, part ∈ Py.split "@" doc /\ malformed part = true)
  /\ ((exists w', generate_node_documentation h nodeitem category w = Ok w')
      <-> forall part, part ∈ Py.split "@" doc -> malformed part = false)
  /\ (forall part,
        malformed part = true
        <-> (exists k payload,
               socket_tag part = Some (k, payload) /\ has_colon payload = false)
            \/ (exists payload,
                  deprecated_tag part = Some payload /\ has_colon payload = false)).
Proof.
  intros Hdoc. rewrite (generate_node_documentation_eq _ _ _ _ _ Hdoc).
  rewrite <- existsb_true_exists, <- existsb_false_forall.
  split; [|split; [|apply malformed_iff]];
    destruct (existsb malformed (Py.split "@" doc)); split; try done.
  - by intros [? ?].
  - by eexists.
Qed.

Lemma generate_node_documentation_aborts_iff_witness :
  generate_node_documentation
    (sample_host (Some "Old.@deprecated Use the new node") [sample_category])
    sample_item sample_category empty_world = Raise ValueError.
Proof.
  destruct (generate_node_documentation_aborts_iff
              (sample_host (Some "Old.@deprecated Use the new node") [sample_category])
              sample_item sample_category empty_world
              "Old.@deprecated Use the new node" eq_refl) as [[_ Hraise] _].
  apply Hraise. exists "deprecated Use the new node".
  split; [|vm_compute; reflexivity].
  change (Py.split "@" "Old.@deprecated Use the new node")
    with ["Old."; "deprecated Use the new node"].
  apply list_elem_of_further, list_elem_of_here.
Defined.

(** A node with a docstring that has a malformed tag. *)
Definition doc_malformed (h : Host) (nodeitem : NodeItem) : bool :=
  match __doc__ (get_nodetype h (nodetype nodeitem)) with
  | Some doc => existsb malformed (Py.split "@" doc)
  | None => false
  end.

Definition registry_malformed (h : Host) : bool :=
  existsb (fun category =>
             existsb (doc_malformed h)
                     (get_all_nodes category ++ deprecated_nodes category))
          (get_all_categories h).

Lemma doc_malformed_false h nodeitem :
  doc_malformed h nodeitem = false <-> well_formed_doc h nodeitem.
Proof.
  unfold doc_malformed, well_formed_doc.
  destruct (__doc__ _) as [doc|]; split; try done.
  - by intros E d [= <-].
  - intros Hwf. by apply Hwf.
Qed.

Lemma run_returns h :
  (forall category, category ∈ get_all_categories h ->
   forall nodeitem, nodeitem ∈ get_all_nodes category ++ deprecated_nodes category ->
                    well_formed_doc h nodeitem) ->
  exists w', run h = Ok w'.
Proof.
  intros Hwf. rewrite run_unfold.
  assert (forall s, exists s',
            for_each (category_entry h) (get_all_categories h) s = Ok s') as Hall.
  { apply for_each_returns. intros category Hc s.
    apply category_entry_returns. by apply Hwf. }
  destruct (Hall (Document_add (UnorderedList 0)
                    (fold_left (listing_step 0) (category_items h) (preamble h))))
    as [w2 ->].
  cbn [mbind result_bind]. by eexists.
Qed.

Lemma registry_malformed_true h :
  registry_malformed h = true
  <-> exists category nodeitem doc part,
        category ∈ get_all_categories h
        /\ nodeitem ∈ get_all_nodes category ++ deprecated_nodes category
        /\ __doc__ (get_nodetype h (nodetype nodeitem)) = Some doc
        /\ part ∈ Py.split "@" doc /\ malformed part = true.
Proof.
  unfold registry_malformed. rewrite existsb_true_exists. split.
  - intros (category & Hc & (nodeitem & Hn & Hd)%existsb_true_exists).
    unfold doc_malformed in Hd.
    destruct (__doc__ (get_nodetype h (nodetype nodeitem))) as [doc|] eqn:Hdoc; [|done].
    apply existsb_true_exists in Hd as (part & Hp & Hm).
    by exists category, nodeitem, doc, part.
  - intros (category & nodeitem & doc & part & Hc & Hn & Hdoc & Hp & Hm).
    exists category. split; [done|]. apply existsb_true_exists.
    exists nodeitem. split; [done|]. unfold doc_malformed. rewrite Hdoc.
    apply existsb_true_exists. by exists part.
Qed.

Lemma registry_malformed_false h :
  registry_malformed h = false
  <-> forall category, category ∈ get_all_categories h ->
      forall nodeitem, nodeitem ∈ get_all_nodes category ++ deprecated_nodes category ->
                       well_formed_doc h nodeitem.
Proof.
  unfold registry_malformed. rewrite existsb_false_forall. split.
  - intros Hall category Hc nodeitem Hn. apply doc_malformed_false.
    specialize (Hall _ Hc). rewrite existsb_false_forall in Hall. by apply Hall.
  - intros Hall category Hc. apply existsb_false_forall. intros nodeitem Hn.
    apply doc_malformed_false. by apply (Hall category).
Qed.

(** X10: the run ends with [ValueError] exactly when some node of some
    category of the registry, active or deprecated, has a docstring with a
    malformed tag, and it returns the document exactly when no node has
    one; the listing of the sections plays no part in this. *)
Theorem run_aborts_iff h :
  (run h = Raise ValueError
   <-> exists category nodeitem doc part,
         category ∈ get_all_categories h
         /\ nodeitem ∈ get_all_nodes category ++ deprecated_nodes category
         /\ __doc__ (get_nodetype h (nodetype nodeitem)) = Some doc
         /\ part ∈ Py.split "@" doc /\ malformed part = true)
  /\ ((exists w', run h = Ok w')
      <-> forall category, category ∈ get_all_categories h ->
          forall nodeitem,
            nodeitem ∈ get_all_nodes category ++ deprecated_nodes category ->
            well_formed_doc h nodeitem).
Proof.
  rewrite <- registry_malformed_true, <- registry_malformed_false.
  destruct (registry_malformed h) eqn:E.
  - assert (run h = Raise ValueError) as ->.
    { apply registry_malformed_true in E
        as (category & nodeitem & doc & part & Hc & Hn & Hdoc & Hp & Hm).
      eapply run_raise; [done|]. eapply category_entry_raise; [done|].
      by eapply generate_node_documentation_raise. }
    split; split; try done. by intros [? ?].
  - destruct (run_returns h) as [w' ->]; [by apply registry_malformed_false|].
    split; split; try done. by eexists.
Qed.

Example run_aborts_on_deprecated_without_colon :
  run (sample_host (Some "Old.@deprecated Use the new node") [sample_category])
  = Raise ValueError.
Proof. vm_compute. reflexivity. Qed.

(** ** What a call leaves alone *)

(** The list a list block refers to, the slot an [Optional] refers to. *)
Definition list_address (n : Node) : option addr :=
  match n with
  | UnorderedList a => Some a
  | _ => None
  end.
Definition slot_address (n : Node) : option addr :=
  match n with
  | Optional o => Some o
  | _ => None
  end.

Lemma socket_blocks_addresses a ks :
  omap list_address (socket_blocks a ks) = kind_addr a <$> ks.
Proof. induction ks as [|k t IH]; [done|]. simpl. by f_equal. Qed.

Lemma socket_blocks_slots a ks : omap slot_address (socket_blocks a ks) = [].
Proof. induction ks as [|k t IH]; [done|]. simpl. exact IH. Qed.

Lemma node_body_addresses nodeitem category cls doc o a :
  omap list_address (node_body nodeitem category cls doc o a)
  = (if nonempty (see_items (Py.split "@" doc)) then [a] else [])
      ++ (kind_addr a <$> first_kinds [] (Py.split "@" doc)).
Proof.
  unfold node_body. rewrite !omap_app, socket_blocks_addresses, see_blocks_nonempty.
  destruct (nonempty _); simpl; by rewrite app_nil_r.
Qed.

Lemma node_body_slots nodeitem category cls doc o a :
  omap slot_address (node_body nodeitem category cls doc o a) = [o].
Proof.
  unfold node_body. rewrite !omap_app, socket_blocks_slots, see_blocks_nonempty.
  by destruct (nonempty _).
Qed.

#[global] Instance kind_addr_inj a : Inj (=) (=) (kind_addr a).
Proof. intros [] []; simpl; intros E; done || lia. Qed.

Lemma kind_addr_range a k : a < kind_addr a k < a + 4.
Proof. destruct k; simpl; lia. Qed.

(** X11: a call of [generate_node_documentation] that returns leaves alone
    what was built before it: the blocks of the document stay and the new
    ones come behind them, the items of the lists and the content of the
    deprecation slots that existed are unchanged, and the header level is
    the same.  The list blocks it adds refer to lists made by this very
    call, a different one for each section, and its deprecation slot is
    new: no two nodes share a list or a slot. *)
Theorem generate_node_documentation_frame h nodeitem category w w' :
  generate_node_documentation h nodeitem category w = Ok w' ->
  (exists N, nodes w' = nodes w ++ N)
  /\ (forall a : nat, a < length (py_lists w) -> items_at w' a = items_at w a)
  /\ (forall o : nat, o < length (optionals w) -> content_at w' o = content_at w o)
  /\ header_level w' = header_level w
  /\ (forall a : nat, UnorderedList a ∈ added w w' ->
        length (py_lists w) <= a < length (py_lists w'))
  /\ (forall o : nat, Optional o ∈ added w w' ->
        length (optionals w) <= o < length (optionals w'))
  /\ NoDup (omap list_address (added w w')).
Proof.
  destruct (__doc__ (get_nodetype h (nodetype nodeitem))) as [doc|] eqn:Hdoc.
  - intros Hg. destruct (generate_node_documentation_ok _ _ _ _ _ _ Hdoc Hg) as [_ ->].
    set (cls := get_nodetype h (nodetype nodeitem)).
    assert (added w (documented nodeitem category cls doc w)
            = node_body nodeitem category cls doc (length (optionals w))
                        (length (py_lists w))) as -> by by apply added_app.
    split; [by eexists|]. split; [|split; [|split; [done|split; [|split]]]].
    + intros a Ha. unfold items_at, documented. cbn [py_lists].
      by rewrite lookup_app_l.
    + intros o Ho. unfold content_at, documented. cbn [optionals].
      by rewrite lookup_app_l.
    + intros a Ha. assert (a ∈ omap list_address
                                 (node_body nodeitem category cls doc
                                    (length (optionals w)) (length (py_lists w)))) as Hin.
      { apply list_elem_of_omap. by exists (UnorderedList a). }
      rewrite node_body_addresses in Hin. cbn [documented py_lists].
      rewrite length_app. cbn [length].
      apply elem_of_app in Hin as [Hin|Hin].
      * destruct (nonempty _); [|by apply elem_of_nil in Hin].
        apply list_elem_of_singleton in Hin. lia.
      * apply list_elem_of_fmap in Hin as (k & -> & _).
        pose proof (kind_addr_range (length (py_lists w)) k). lia.
    + intros o Ho. assert (o ∈ omap slot_address
                                 (node_body nodeitem category cls doc
                                    (length (optionals w)) (length (py_lists w)))) as Hin.
      { apply list_elem_of_omap. by exists (Optional o). }
      rewrite node_body_slots in Hin. apply list_elem_of_singleton in Hin.
      cbn [documented optionals]. rewrite length_app. cbn [length]. lia.
    + rewrite node_body_addresses.
      assert (NoDup (kind_addr (length (py_lists w))
                       <$> first_kinds [] (Py.split "@" doc))) as Hk.
      { apply (NoDup_fmap_2 _), first_kinds_NoDup. }
      destruct (nonempty _); [|done]. simpl. constructor; [|done].
      intros (k & E & _)%list_elem_of_fmap.
      pose proof (kind_addr_range (length (py_lists w)) k). lia.
  - unfold generate_node_documentation. rewrite Hdoc. intros [= <-].
    assert (added w w = []) as -> by (apply added_app; by rewrite app_nil_r).
    split; [exists []; by rewrite app_nil_r|].
    split; [done|]. split; [done|]. split; [done|].
    split; [intros a Hin; by apply elem_of_nil in Hin|].
    split; [intros o Hin; by apply elem_of_nil in Hin|].
    apply NoDup_nil_2.
Qed.

Lemma generate_node_documentation_frame_witness :
  omap list_address (added empty_world world_two_inputs) = [1; 2]
  /\ NoDup (omap list_address (added empty_world world_two_inputs)).
Proof.
  assert (generate_node_documentation
            (sample_host (Some doc_two_inputs) [sample_category])
            sample_item sample_category empty_world = Ok world_two_inputs) as Hg
    by (vm_compute; reflexivity).
  split; [vm_compute; reflexivity|].
  exact (proj2 (proj2 (proj2 (proj2 (proj2 (proj2
           (generate_node_documentation_frame _ _ _ _ _ Hg))))))).
Defined.

(** ** Several deprecation tags *)

Lemma last_notice_none parts :
  (forall part, part ∈ parts -> deprecated_tag part = None) -> last_notice parts = None.
Proof.
  induction parts as [|part rest IH]; intros Hall; [done|].
  rewrite last_notice_cons, (Hall part) by by left. cbn [mbind option_bind].
  apply IH. intros p Hp. apply Hall. by right.
Qed.

Lemma last_notice_app pre d post q :
  (deprecated_tag d ≫= fun p => from_result (deprecation_quote p)) = Some q ->
  (forall p, p ∈ post -> deprecated_tag p = None) ->
  last_notice (pre ++ d :: post) = Some q.
Proof.
  intros Hd Hpost. induction pre as [|x pre IH].
  - cbn [app]. by rewrite last_notice_cons, Hd, (last_notice_none post).
  - cbn [app]. rewrite last_notice_cons, IH.
    destruct (deprecated_tag x) as [px|]; [|done]. cbn [mbind option_bind].
    destruct (from_result (deprecation_quote px)); done.
Qed.

(** X12: the deprecation slot is the first block of the subtree of a
    documented node; it stays empty when the docstring has no [deprecated]
    tag, and with several such tags it holds the notice of the last one:
    each assignment replaces the one before. *)
Theorem last_deprecated_tag_wins h nodeitem category w w' doc :
  __doc__ (get_nodetype h (nodetype nodeitem)) = Some doc ->
  generate_node_documentation h nodeitem category w = Ok w' ->
  let parts := Py.split "@" doc in
  let o := length (optionals w) in
  head (added w w') = Some (Optional o)
  /\ ((forall part, part ∈ parts -> deprecated_tag part = None) ->
      content_at w' o = None)
  /\ (forall pre d post payload,
        parts = pre ++ d :: post ->
        deprecated_tag d = Some payload ->
        (forall p, p ∈ post -> deprecated_tag p = None) ->
        exists q, deprecation_quote payload = Ok q /\ content_at w' o = Some q).
Proof.
  intros Hdoc Hg parts o.
  destruct (generate_node_documentation_ok _ _ _ _ _ _ Hdoc Hg) as [Hm ->].
  rewrite content_at_documented. fold parts. split; [|split].
  - erewrite added_app; [|done]. done.
  - apply last_notice_none.
  - intros pre d post payload Hparts Hd Hpost.
    assert (malformed d = false) as Hmd.
    { apply (proj1 (existsb_false_forall malformed parts) Hm).
      rewrite Hparts. apply elem_of_app. right. by left. }
    assert (has_colon payload = true) as Hc.
    { unfold malformed in Hmd. rewrite Hd in Hmd.
      apply orb_false_iff in Hmd as [_ Hmd]. by apply negb_false_iff in Hmd. }
    destruct (deprecation_quote_ok _ Hc) as [q Hq]. exists q. split; [done|].
    rewrite Hparts. apply last_notice_app; [|done]. by rewrite Hd; cbn; rewrite Hq.
Qed.

Lemma last_deprecated_tag_wins_witness :
  content_at world_two_notices 0
  = Some (Quote (Text "**DEPRECATED.** This node is deprecated and will be removed in future versions of Armory. Please use the following node(s) instead: [`Second`](#second). use the second.")).
Proof.
  assert (generate_node_documentation
            (sample_host (Some doc_two_notices) [sample_category])
            sample_item sample_category empty_world = Ok world_two_notices) as Hg
    by (vm_compute; reflexivity).
  destruct (last_deprecated_tag_wins
              (sample_host (Some doc_two_notices) [sample_category])
              sample_item sample_category empty_world world_two_notices
              doc_two_notices eq_refl Hg) as (_ & _ & Hlast).
  destruct (Hlast ["Old."; "deprecated First:use the first"; "input a: x"]
                  "deprecated Second:use the second" [] "Second:use the second"
                  eq_refl eq_refl) as (q & Hq & Hc).
  - intros p Hp. by apply elem_of_nil in Hp.
  - etrans; [exact Hc|]. vm_compute in Hq. by injection Hq as <-.
Defined.

(** ** Splitting at the delimiter *)

Lemma split_nonempty sep s : Py.split sep s <> [].
Proof.
  destruct s as [|c t]; [done|]. simpl. destruct (Py.eqc c sep); [done|].
  by destruct (Py.split sep t).
Qed.

Lemma split_app sep a b :
  Py.split sep (a +:+ String sep b) = Py.split sep a ++ Py.split sep b.
Proof.
  induction a as [|c a IH].
  - rewrite string_app_nil. simpl.
    unfold Py.eqc. by rewrite Ascii.eqb_refl.
  - rewrite string_app_cons. simpl. destruct (Py.eqc c sep); rewrite IH; [done|].
    pose proof (split_nonempty sep a). by destruct (Py.split sep a).
Qed.

Lemma split_no_sep sep u : has_char sep u = false -> Py.split sep u = [u].
Proof.
  unfold has_char. induction u as [|c u IH]; [done|]. simpl.
  rewrite (eqc_sym c). destruct (Py.eqc sep c); [done|]. simpl.
  intros Hu. by rewrite (IH Hu).
Qed.

(** ** Fragments that are no tags *)

Lemma untagged_malformed u : untagged u -> malformed u = false.
Proof. intros (_ & Ht & Hd). unfold malformed, malformed_socket. by rewrite Ht, Hd. Qed.

Lemma drop_untagged_malformed l1 u l2 :
  untagged u -> existsb malformed (l1 ++ u :: l2) = existsb malformed (l1 ++ l2).
Proof.
  intros Hu. rewrite !existsb_app. cbn [existsb]. by rewrite (untagged_malformed _ Hu).
Qed.

Lemma drop_untagged_see_items l1 u l2 :
  untagged u -> see_items (l1 ++ u :: l2) = see_items (l1 ++ l2).
Proof.
  intros (Hs & _). unfold see_items. rewrite !omap_app.
  change (omap see_item (u :: l2)) with (see_items (u :: l2)).
  by rewrite see_items_cons, Hs.
Qed.

Lemma drop_untagged_socket_items k l1 u l2 :
  untagged u -> socket_items k (l1 ++ u :: l2) = socket_items k (l1 ++ l2).
Proof.
  intros (_ & Ht & _). unfold socket_items. rewrite !omap_app.
  change (omap (socket_item_of k) (u :: l2)) with (socket_items k (u :: l2)).
  rewrite socket_items_cons. unfold socket_item_of. by rewrite Ht.
Qed.

Lemma drop_untagged_first_kinds l1 u l2 : forall seen,
  untagged u -> first_kinds seen (l1 ++ u :: l2) = first_kinds seen (l1 ++ l2).
Proof.
  induction l1 as [|p l1 IH]; intros seen Hu.
  - destruct Hu as (_ & Ht & _). cbn [app first_kinds]. unfold socket_kind. by rewrite Ht.
  - cbn [app first_kinds]. destruct (socket_kind p) as [k|]; [|by apply IH].
    case_bool_decide; [by apply IH|]. f_equal. by apply IH.
Qed.

Lemma drop_untagged_last_notice l1 u l2 :
  untagged u -> last_notice (l1 ++ u :: l2) = last_notice (l1 ++ l2).
Proof.
  intros (_ & _ & Hd). unfold last_notice. rewrite !omap_app. f_equal. f_equal.
  cbn [omap list_omap]. by rewrite Hd.
Qed.

(** X13: a fragment behind an [@] that starts with none of the prefixes is
    dropped without a trace: the docstring with the fragment and the
    docstring without it are documented alike, block for block and item for
    item, and the one aborts exactly when the other does. *)
Theorem unrecognised_fragment_is_dropped h h' nodeitem category w a u b :
  has_char "@" u = false ->
  untagged u ->
  get_nodetype h' (nodetype nodeitem)
  = mkNodeClass (Some (a +:+ "@" +:+ b))
                (__module__ (get_nodetype h (nodetype nodeitem)))
                (bl_idname (get_nodetype h (nodetype nodeitem))) ->
  __doc__ (get_nodetype h (nodetype nodeitem)) = Some (a +:+ "@" +:+ u +:+ "@" +:+ b) ->
  generate_node_documentation h nodeitem category w
  = generate_node_documentation h' nodeitem category w.
Proof.
  intros Hat Hu Hcls' Hdoc.
  assert (__doc__ (get_nodetype h' (nodetype nodeitem)) = Some (a +:+ "@" +:+ b)) as Hdoc'
    by by rewrite Hcls'.
  rewrite (generate_node_documentation_eq _ _ _ _ _ Hdoc),
    (generate_node_documentation_eq _ _ _ _ _ Hdoc').
  unfold documented, node_body, description_of, sources_paragraph. rewrite Hcls'.
  cbn [__module__ bl_idname].
  assert (Py.split "@" (a +:+ "@" +:+ u +:+ "@" +:+ b)
          = Py.split "@" a ++ u :: Py.split "@" b) as ->.
  { change (a +:+ "@" +:+ u +:+ "@" +:+ b) with (a +:+ String "@" (u +:+ String "@" b)).
    by rewrite !split_app, (split_no_sep _ _ Hat). }
  assert (Py.split "@" (a +:+ "@" +:+ b) = Py.split "@" a ++ Py.split "@" b) as ->.
  { change (a +:+ "@" +:+ b) with (a +:+ String "@" b). by rewrite split_app. }
  rewrite (drop_untagged_malformed _ _ _ Hu), (drop_untagged_see_items _ _ _ Hu),
    (drop_untagged_first_kinds _ _ _ _ Hu), (drop_untagged_last_notice _ _ _ Hu),
    !(drop_untagged_socket_items _ _ _ _ Hu).
  pose proof (split_nonempty "@" a). by destruct (Py.split "@" a).
Qed.

Lemma unrecognised_fragment_is_dropped_witness :
  generate_node_documentation
    (sample_host (Some "Adds.@note internal@input a: x") [sample_category])
    sample_item sample_category empty_world
  = generate_node_documentation
      (sample_host (Some "Adds.@input a: x") [sample_category])
      sample_item sample_category empty_world.
Proof.
  assert (untagged "note internal") as Hu by (repeat split; vm_compute; reflexivity).
  exact (unrecognised_fragment_is_dropped
           (sample_host (Some "Adds.@note internal@input a: x") [sample_category])
           (sample_host (Some "Adds.@input a: x") [sample_category])
           sample_item sample_category empty_world
           "Adds." "note internal" "input a: x" eq_refl Hu eq_refl eq_refl).
Defined.

(** ** The listing of the sections *)

(** Reading a listing: the titles, each with the items of the list block
    that follows it. *)
Fixpoint listing_view (heap : list (list Node)) (items : list Node)
    : list (Node * list Node) :=
  match items with
  | title :: UnorderedList a :: rest =>
      (title, default [] (heap !! (a : nat))) :: listing_view heap rest
  | _ => []
  end.

(** The listing of a registry: for each section that has a category, in
    order, the capitalised name in bold and the links to its categories. *)
Fixpoint sections_listing (entries : list (string * list ArmNodeCategory))
    : list (Node * list Node) :=
  match entries with
  | [] => []
  | (section, []) :: rest => sections_listing rest
  | (section, cats) :: rest =>
      (Span (Bold (Text (Py.capitalize section))), map category_link cats)
        :: sections_listing rest
  end.

Lemma listing_exact entries : forall H cur T N O lv,
  exists X Y,
    fold_left (listing_step (length H)) entries (mkWorld N (H ++ [cur] ++ T) O lv)
    = mkWorld N (H ++ [cur ++ X] ++ T ++ Y) O lv
    /\ forall Z, listing_view (H ++ [cur ++ X] ++ T ++ Y ++ Z) X
                 = sections_listing entries.
Proof.
  induction entries as [|[section cats] rest IH]; intros H cur T N O lv.
  - exists [], []. by rewrite !app_nil_r.
  - cbn [fold_left]. rewrite listing_step_spec.
    unfold listing_items, listing_lists. destruct cats as [|c cats].
    + cbn [length Nat.ltb Nat.leb]. rewrite !app_nil_r. apply IH.
    + cbn [length Nat.ltb Nat.leb].
      set (a := length H + 1 + length T). set (links := map category_link (c :: cats)).
      set (title := Span (Bold (Text (Py.capitalize section)))).
      destruct (IH H (cur ++ [title; UnorderedList a]) (T ++ [links]) N O lv)
        as (X & Y & -> & HX).
      exists ([title; UnorderedList a] ++ X), ([links] ++ Y).
      rewrite <- !(assoc_L (++) _ _ X), <- !(assoc_L (++) _ _ Y) in *.
      split; [done|]. intros Z. cbn [app sections_listing listing_view].
      fold links title. f_equal.
      * f_equal.
        assert (length H <= a) as Hle by (unfold a; lia).
        assert (a - length H = S (length T)) as Hsub by (unfold a; lia).
        rewrite lookup_app_r, Hsub by done.
        change (default [] ((T ++ links :: Y ++ Z) !! length T) = links).
        rewrite lookup_app_r by done. by rewrite Nat.sub_diag.
      * specialize (HX Z). rewrite <- !(assoc_L (++)) in HX. exact HX.
Qed.

(** X14: in the document of a run that returns, the sixth block is the
    "Node Categories" listing, and the listing has, for each section of the
    registry that has at least one category and in the order of the
    registry, the capitalised section name in bold followed by the list of
    the links to the categories of the section, in their order, each to the
    anchor of the category name; a section without categories adds
    nothing. *)
Theorem listing_of_sections h w' :
  run h = Ok w' ->
  nodes w' !! 5 = Some (UnorderedList 0)
  /\ listing_view (py_lists w') (items_at w' 0) = sections_listing (category_items h).
Proof.
  rewrite run_unfold.
  destruct (listing_exact (category_items h) [] [] [] (nodes (preamble h)) [] 2)
    as (X & Y & E & HX).
  cbn [app length] in E, HX.
  change (mkWorld (nodes (preamble h)) [[]] [] 2) with (preamble h) in E.
  rewrite E. unfold Document_add. cbn [nodes py_lists optionals header_level].
  destruct (for_each _ _ _) as [w2|] eqn:E2; [|done].
  cbn [mbind result_bind]. intros [= <-].
  destruct (categories_loop_ok _ _ _ _ E2) as [([N HN] & [L HL] & _) _].
  cbn [nodes py_lists] in HN, HL.
  unfold items_at, leave_sublevel. cbn [nodes py_lists]. rewrite HN, HL.
  split; [done|].
  cbn [app lookup list_lookup default from_option]. apply HX.
Qed.

Lemma listing_of_sections_witness :
  listing_view (py_lists world_two_sections) (items_at world_two_sections 0)
  = [(Span (Bold (Text "Logic")),
      [Span (Link (Text "Logic") "#logic"); Span (Link (Text "Math") "#math")])].
Proof.
  assert (run two_section_host = Ok world_two_sections) as Hrun
    by (vm_compute; reflexivity).
  etrans; [exact (proj2 (listing_of_sections two_section_host world_two_sections Hrun))|].
  vm_compute. reflexivity.
Defined.

(** ** The outline of the document *)

(** The headers of a list of blocks, each with its level. *)
Definition outline (ns : list Node) : list (nat * string) :=
  omap (fun n => match n with
                 | Header lv (Text s) => Some (lv, s)
                 | _ => None
                 end) ns.

(** The outline of a category: its name, then the labels of its nodes,
    sorted, one level below. *)
Definition category_outline (lv : nat) (category : ArmNodeCategory)
    : list (nat * string) :=
  (lv, name category)
    :: ((fun n => (S lv, label n))
          <$> sorted_by_label (get_all_nodes category ++ deprecated_nodes category)).

Lemma outline_app l1 l2 : outline (l1 ++ l2) = outline l1 ++ outline l2.
Proof. apply omap_app. Qed.

Lemma outline_no_header l :
  (forall lv, omap (header_text lv) l = []) -> outline l = [].
Proof.
  induction l as [|n t IH]; intros Hl; [done|].
  assert (forall lv, omap (header_text lv) t = []) as Ht.
  { intros lv. specialize (Hl lv). cbn [omap list_omap] in Hl.
    by destruct (header_text lv n). }
  unfold outline. cbn [omap list_omap]. fold (outline t). rewrite (IH Ht).
  destruct n as [| lv [s| | | |] | | | | | |]; try done.
  specialize (Hl lv). cbn [omap list_omap header_text] in Hl.
  by rewrite decide_True in Hl.
Qed.

Lemma nodes_loop_outline h category ns : forall w w',
  for_each (node_entry h category) ns w = Ok w' ->
  exists N,
    nodes w' = nodes w ++ N
    /\ outline N = (fun n => (header_level w, label n)) <$> ns
    /\ header_level w' = header_level w.
Proof.
  induction ns as [|n t IH]; intros w w'; cbn [for_each].
  - intros [= <-]. exists []. by rewrite app_nil_r.
  - destruct (node_entry h category w n) as [w1|] eqn:E1; [|done].
    cbn [mbind result_bind]. intros E2.
    destruct (node_entry_ok _ _ _ _ _ E1) as (body & Hn & Hb & (_ & _ & _ & Hlv)).
    destruct (IH _ _ E2) as (N & Hn' & Ho & Hlv').
    exists (Header (header_level w) (Text (label n)) :: body ++ N).
    split; [|split].
    + rewrite Hn', Hn, <- (assoc_L (++)). done.
    + change (Header (header_level w) (Text (label n)) :: body ++ N)
        with ([Header (header_level w) (Text (label n))] ++ body ++ N).
      rewrite !outline_app, (outline_no_header _ Hb), Ho, Hlv. done.
    + congruence.
Qed.

Lemma category_entry_outline h w w' category :
  category_entry h w category = Ok w' ->
  exists N,
    nodes w' = nodes w ++ N
    /\ outline N = category_outline (header_level w) category
    /\ header_level w' = header_level w.
Proof.
  unfold category_entry. set (w0 := enter_sublevel _).
  destruct (for_each _ _ w0) as [w1|] eqn:E; [|done].
  cbn [mbind result_bind]. intros [= <-].
  destruct (nodes_loop_outline _ _ _ _ _ E) as (N & Hn & Ho & Hlv).
  exists (category_head (header_level w) category ++ N).
  cbn [leave_sublevel nodes header_level]. rewrite Hn, Hlv.
  assert (header_level w0 = S (header_level w)) as Hw0.
  { unfold w0. by destruct (String.eqb (description category) ""). }
  split; [|split].
  - unfold w0, category_head.
    destruct (String.eqb (description category) ""); simpl;
      by rewrite <- !(assoc_L (++)).
  - rewrite outline_app, Ho, Hw0. unfold category_head, category_outline.
    by destruct (String.eqb (description category) "").
  - by rewrite Hw0.
Qed.

Lemma categories_loop_outline h cs : forall w w',
  for_each (category_entry h) cs w = Ok w' ->
  exists N,
    nodes w' = nodes w ++ N
    /\ outline N = flat_map (category_outline (header_level w)) cs
    /\ header_level w' = header_level w.
Proof.
  induction cs as [|c rest IH]; intros w w'; cbn [for_each].
  - intros [= <-]. exists []. by rewrite app_nil_r.
  - destruct (category_entry h w c) as [w1|] eqn:E1; [|done].
    cbn [mbind result_bind]. intros E2.
    destruct (category_entry_outline _ _ _ _ E1) as (N1 & Hn1 & Ho1 & Hlv1).
    destruct (IH _ _ E2) as (N2 & Hn2 & Ho2 & Hlv2).
    exists (N1 ++ N2). split; [|split].
    + by rewrite Hn2, Hn1, <- (assoc_L (++)).
    + rewrite outline_app, Ho1, Ho2, Hlv1. done.
    + congruence.
Qed.

(** X15: the headers of the document of a run that returns are, in order:
    the title at level 1, "Node Categories" at level 2, and then for each
    category of the registry, in the declared order, its name at level 2
    followed by the labels of its nodes at level 3, the active and the
    deprecated ones sorted together; nothing else is a header. *)
Theorem document_outline h w' :
  run h = Ok w' ->
  outline (nodes w')
  = (1, "Logic Nodes Reference") :: (2, "Node Categories")
      :: flat_map (category_outline 2) (get_all_categories h).
Proof.
  intros (X & Y & w2 & E2 & -> & _)%run_ok.
  destruct (categories_loop_outline _ _ _ _ E2) as (N & Hn & Ho & _).
  cbn [nodes header_level] in Hn, Ho. cbn [leave_sublevel nodes].
  by rewrite Hn, !outline_app, Ho.
Qed.

Lemma document_outline_witness :
  outline (nodes world_two_sections)
  = [(1, "Logic Nodes Reference"); (2, "Node Categories");
     (2, "Logic"); (3, "Gate"); (3, "Merge"); (3, "Switch");
     (2, "Math"); (3, "Math")].
Proof.
  assert (run two_section_host = Ok world_two_sections) as Hrun
    by (vm_compute; reflexivity).
  etrans; [exact (document_outline two_section_host world_two_sections Hrun)|].
  vm_compute. reflexivity.
Defined.

(** * export_skydome_geometry: printing a list *)

Module Skydome.
Section ListRepresentation.

(** The elements and Python's [str] on them (integers for the index
    buffer, rounded floats for positions and normals). *)
Context {A : Type} (str_of : A -> string).

(** [f"[{','.join(str(i) for i in lst)}]"] *)
Definition list_representation (lst : list A) : string :=
  "[" +:+ Py.join "," (map str_of lst) +:+ "]".

(** Reading the text between the brackets back: the entries between the
    commas, none for the empty text. *)
Definition entries (body : string) : list string :=
  if String.eqb body "" then [] else Py.split "," body.

End ListRepresentation.
End Skydome.

Lemma has_char_join_comma c l :
  Py.eqc c "," = false ->
  has_char c (Py.join "," l) = existsb (has_char c) l.
Proof.
  intros Hc. induction l as [|x [|y t] IH]; [done| |].
  - change (Py.join "," [x]) with x. simpl. by rewrite orb_false_r.
  - rewrite join_cons2, !has_char_app, IH. cbn [existsb].
    unfold has_char at 2. simpl. by rewrite Hc.
Qed.

Lemma string_app_inv_r a : forall b c, a +:+ String c "" = b +:+ String c "" -> a = b.
Proof.
  induction a as [|x a IH]; intros [|y b] c; rewrite ?string_app_cons, ?string_app_nil.
  - done.
  - intros [= -> E]. by destruct b.
  - intros [= -> E]. by destruct a.
  - intros [= -> E]. f_equal. by eapply IH.
Qed.

Lemma split_join_comma l :
  l <> [] -> Forall (fun s => has_char "," s = false) l ->
  Py.split "," (Py.join "," l) = l.
Proof.
  intros Hne Hl. induction Hl as [|x [|y t] Hx Ht IH]; [done| |].
  - change (Py.join "," [x]) with x. by apply split_no_sep.
  - rewrite join_cons2. change ("," +:+ ?s) with (String "," s).
    rewrite split_app, (split_no_sep _ _ Hx), IH; done.
Qed.

Lemma join_comma_empty l :
  Forall (fun s => s <> "") l -> Py.join "," l = "" -> l = [].
Proof.
  intros Hl. destruct Hl as [|x t Hx Ht]; [done|].
  destruct x as [|c x]; [done|]. by destruct t.
Qed.

Lemma entries_join l :
  Forall (fun s => s <> "") l -> Forall (fun s => has_char "," s = false) l ->
  Skydome.entries (Py.join "," l) = l.
Proof.
  intros Hne Hc. unfold Skydome.entries.
  destruct (String.eqb_spec (Py.join "," l) "") as [E|E].
  - symmetry. by apply join_comma_empty.
  - apply split_join_comma; [|done]. by intros ->.
Qed.

(** X16: the printed list has no space in it exactly when no element is
    printed with one ("list to string without spaces"): the brackets and
    the commas bring none. *)
Theorem list_representation_without_spaces {A} (str_of : A -> string) (lst : list A) :
  has_char " " (Skydome.list_representation str_of lst) = false
  <-> forall x, x ∈ lst -> has_char " " (str_of x) = false.
Proof.
  unfold Skydome.list_representation.
  rewrite !has_char_app, has_char_join_comma by done.
  change (has_char " " "[") with false. change (has_char " " "]") with false.
  rewrite orb_false_l, orb_false_r, existsb_false_forall. split.
  - intros Hall x Hx. apply Hall. apply list_elem_of_In, in_map. by apply list_elem_of_In.
  - intros Hall s (x & <- & Hx)%list_elem_of_In%in_map_iff.
    apply Hall. by apply list_elem_of_In.
Qed.

(** X17: when every element is printed as a non-empty text without a
    comma, the printed list tells the printed elements: two lists with the
    same representation have the same elements as printed, in the same
    order, and they are the same lists when printing is one-to-one. *)
Theorem list_representation_injective {A} (str_of : A -> string) (l1 l2 : list A) :
  (forall x, x ∈ l1 ++ l2 -> str_of x <> "" /\ has_char "," (str_of x) = false) ->
  Skydome.list_representation str_of l1 = Skydome.list_representation str_of l2 ->
  map str_of l1 = map str_of l2
  /\ ((forall x y, str_of x = str_of y -> x = y) -> l1 = l2).
Proof.
  intros Hall E.
  assert (forall l, (forall x, x ∈ l -> x ∈ l1 ++ l2) ->
            Skydome.entries (Py.join "," (map str_of l)) = map str_of l) as Hdec.
  { intros l Hl. apply entries_join; apply Forall_forall;
      intros s (x & <- & Hx)%list_elem_of_In%in_map_iff;
      apply Hall, Hl; by apply list_elem_of_In. }
  unfold Skydome.list_representation in E.
  rewrite !string_app_cons, !string_app_nil in E. injection E as E.
  apply string_app_inv_r in E.
  assert (map str_of l1 = map str_of l2) as Hmap.
  { rewrite <- (Hdec l1), <- (Hdec l2), E; [done| |];
      intros x Hx; apply elem_of_app; [by right|by left]. }
  split; [done|]. intros Hinj. clear -Hmap Hinj.
  revert l2 Hmap. induction l1 as [|x l1 IH]; intros [|y l2]; try done.
  intros [= Hxy Hrest]. f_equal; [by apply Hinj|by apply IH].
Qed.

(** The index buffer holds vertex indices; [str] of a natural number is its
    decimal numeral. *)
Example index_buffer_representation :
  Skydome.list_representation (pretty : nat -> string) [0; 2; 1; 10] = "[0,2,1,10]"
  /\ Skydome.list_representation (pretty : nat -> string) [] = "[]".
Proof. split; vm_compute; reflexivity. Qed.

Lemma list_representation_injective_witness :
  map (pretty : nat -> string) [0; 2; 1] = map pretty [0; 2; 1].
Proof.
  refine (proj1 (list_representation_injective (pretty : nat -> string)
                   [0; 2; 1] [0; 2; 1] _ eq_refl)).
  intros x Hx. cbn [app] in Hx.
  repeat (apply elem_of_cons in Hx as [->|Hx]; [split; [done|vm_compute; reflexivity]|]).
  by apply elem_of_nil in Hx.
Defined.

(** * More on the sources and on the order of the nodes *)

(** The path of the Python file of a node, as the "Sources:" paragraph
    computes it from the module path. *)
Definition python_source_file (module : string) : string :=
  Py.join "/" (drop 2 (Py.split "." module)) +:+ ".py".

Lemma join_cons_char sep c h r :
  Py.join sep (String c h :: r) = String c (Py.join sep (h :: r)).
Proof. by destruct r. Qed.

Lemma join_split_replace s :
  Py.join "/" (Py.split "." s) = Py.replace "." "/" s.
Proof.
  induction s as [|c t IH]; [done|]. simpl.
  pose proof (split_nonempty "." t) as Hne.
  destruct (Py.eqc c ".").
  - rewrite <- IH. destruct (Py.split "." t) as [|h r]; [done|].
    by rewrite join_cons2.
  - rewrite <- IH. destruct (Py.split "." t) as [|h r]; [done|].
    by rewrite join_cons_char.
Qed.

(** X18: the Python link of the "Sources:" paragraph drops the first two
    components of the module path, whatever they are, and turns the dots of
    the rest into slashes before ".py" is appended; a module path with
    fewer than three components gives the bare ".py". *)
Theorem python_source_file_path p1 p2 rest :
  has_char "." p1 = false ->
  has_char "." p2 = false ->
  python_source_file (p1 +:+ "." +:+ p2 +:+ "." +:+ rest)
  = Py.replace "." "/" rest +:+ ".py"
  /\ python_source_file (p1 +:+ "." +:+ p2) = ".py"
  /\ python_source_file p1 = ".py"
  /\ forall cls,
       sources_paragraph cls
       = Paragraph (Text (str (Bold (Text "Sources:")) +:+ " "
                          +:+ str (Link (Text "Python")
                                        (PY_NODE_DIR +:+ python_source_file (__module__ cls)))
                          +:+ " | "
                          +:+ str (Link (Text "Haxe")
                                        (HX_NODE_DIR
                                         +:+ (Py.slice_from 2 (bl_idname cls) +:+ ".hx"))))).
Proof.
  intros H1 H2. unfold python_source_file.
  change (p1 +:+ "." +:+ p2 +:+ "." +:+ rest)
    with (p1 +:+ String "." (p2 +:+ String "." rest)).
  change (p1 +:+ "." +:+ p2) with (p1 +:+ String "." p2).
  rewrite !split_app, !(split_no_sep _ _ H1), !(split_no_sep _ _ H2).
  cbn [app drop]. rewrite drop_0, join_split_replace.
  repeat split; reflexivity.
Qed.

Lemma python_source_file_path_witness :
  python_source_file "arm.logicnode.math.LN_math" = "math/LN_math.py".
Proof.
  etrans; [exact (proj1 (python_source_file_path "arm" "logicnode" "math.LN_math"
                           eq_refl eq_refl))|].
  reflexivity.
Defined.

(** ** The sort is the stable sort *)

Lemma filter_label_head (x : NodeItem) t :
  filter (fun n => label n = label x) (x :: t)
  = x :: filter (fun n => label n = label x) t.
Proof. by rewrite filter_cons_True. Qed.

Lemma sorted_filters_unique l1 : forall l2,
  StronglySorted label_le l1 -> StronglySorted label_le l2 ->
  (forall s, filter (fun n => label n = s) l1 = filter (fun n => label n = s) l2) ->
  l1 = l2.
Proof.
  induction l1 as [|x t1 IH]; intros l2 H1 H2 Hf.
  - destruct l2 as [|y t2]; [done|].
    specialize (Hf (label y)). by rewrite filter_label_head in Hf.
  - destruct l2 as [|y t2].
    { specialize (Hf (label x)). by rewrite filter_label_head in Hf. }
    apply StronglySorted_inv in H1 as [H1 Hx]. apply StronglySorted_inv in H2 as [H2 Hy].
    assert (label x = label y) as Hxy.
    { apply (anti_symm String.le).
      - assert (y ∈ filter (fun n => label n = label y) (x :: t1)) as Hin.
        { rewrite Hf, filter_label_head. by left. }
        apply list_elem_of_filter in Hin as [_ [->|Hin]%elem_of_cons]; [reflexivity|].
        rewrite Forall_forall in Hx. by apply Hx.
      - assert (x ∈ filter (fun n => label n = label x) (y :: t2)) as Hin.
        { rewrite <- Hf, filter_label_head. by left. }
        apply list_elem_of_filter in Hin as [_ [->|Hin]%elem_of_cons]; [reflexivity|].
        rewrite Forall_forall in Hy. by apply Hy. }
    pose proof (Hf (label x)) as Hfx.
    rewrite filter_label_head, Hxy, filter_label_head in Hfx.
    injection Hfx as -> Hfx. f_equal. apply IH; [done..|].
    intros s. specialize (Hf s). rewrite !filter_cons in Hf.
    destruct (decide (label y = s)); [by injection Hf|done].
Qed.

(** X19: the order in which a category emits its nodes is the stable sort
    by label and nothing else: any arrangement that is ascending by label
    and keeps, for every label, the nodes with that label in the order of
    the chain of active and deprecated nodes is the one the script uses;
    in particular a list that is already ascending is left as it is. *)
Theorem sorted_by_label_unique l l' :
  StronglySorted label_le l' ->
  (forall s, filter (fun n => label n = s) l' = filter (fun n => label n = s) l) ->
  sorted_by_label l = l'.
Proof.
  intros Hs Hf. apply sorted_filters_unique; [apply sorted_by_label_sorted|done|].
  intros s. by rewrite sorted_by_label_stable, Hf.
Qed.

Lemma sorted_by_label_unique_witness :
  sorted_by_label [mkNodeItem "LNGateNode" "Gate"; mkNodeItem "LNMergeNode" "Merge"]
  = [mkNodeItem "LNGateNode" "Gate"; mkNodeItem "LNMergeNode" "Merge"].
Proof.
  apply sorted_by_label_unique; [|done].
  repeat constructor.
Defined.
